(** * TopSQL list-detail table and Overview context

    A shallow embedding of

    - [ui/lib/apps/TopSQL/pages/List/ListDetail/ListDetailTable.tsx]
      (the [usePlanRecord] derivation and the [ListDetailTable] component), and
    - [ui/packages/tidb-dashboard-lib/src/apps/Overview/context/index.ts]
      (the [OverviewContext] object).

    Numbers.  The samples of [cpu_time_ms] are millisecond counters, so the
    embedding takes them in [Z]: on integers inside the exactly representable
    range, [+], [-] and the sign test of the sort comparator coincide with
    their IEEE-754 counterparts.  The per-second rates are never computed
    with here and are carried as rationals. *)

From Stdlib Require Import ZArith String Sorting.Sorted Sorting.Permutation.
From Stdlib Require QArith_base.
From stdpp Require Import base tactics option list sorting.

Local Open Scope Z_scope.

(** ** JavaScript primitives used by the component *)

Module JS.

(** [x || 0] where [x] is a number or [undefined]: [undefined] and [0] are
    falsy, every other number is returned as it is. *)
Definition or_zero (x : option Z) : Z :=
  match x with
  | Some v => if v =? 0 then 0 else v
  | None => 0
  end.

(** [arr.reduce((pt, t) => pt + t, 0)] *)
Definition reduce_add (arr : list Z) : Z :=
  fold_left (fun pt t => pt + t) arr 0.

(** [!!b] for an optional boolean property. *)
Definition truthy (b : option bool) : bool :=
  match b with
  | Some true => true
  | _ => false
  end.

(** [Array.prototype.sort(cmp)].  ECMAScript (2019 and later) fixes the
    result for a consistent comparator: the elements are reordered so that
    [cmp a b <= 0] for [a] before [b], and elements that compare equal keep
    their relative order.  The algorithm itself is left to the engine; the
    embedding uses insertion from the right, which moves an element past
    another one only when the comparator is strictly positive. *)
Fixpoint sort_insert {A} (cmp : A -> A -> Z) (x : A) (l : list A) : list A :=
  match l with
  | [] => [x]
  | y :: l' => if cmp x y <=? 0 then x :: y :: l' else y :: sort_insert cmp x l'
  end.

Definition sort {A} (cmp : A -> A -> Z) (l : list A) : list A :=
  foldr (sort_insert cmp) [] l.

(** [arr.unshift(x)] seen as a function on the contents. *)
Definition unshift {A} (x : A) (arr : list A) : list A := x :: arr.

End JS.

(** ** Data model *)

(** [TopsqlSummaryPlanItem] of the generated API client, with the properties
    the component reads.  Every property is optional. *)
Record TopsqlSummaryPlanItem := {
  plan_digest : option string;
  cpu_time_ms : option (list Z);
  exec_count_per_sec : option QArith_base.Q;
  scan_records_per_sec : option QArith_base.Q;
  scan_indexes_per_sec : option QArith_base.Q;
  duration_per_exec_ms : option QArith_base.Q
}.

(** [type PlanRecord = { cpuTime: number } & TopsqlSummaryPlanItem] *)
Record PlanRecord := {
  cpuTime : Z;
  planItem : TopsqlSummaryPlanItem
}.

(** [SQLRecord] of [../ListTable], with the two properties that the component
    reads: [is_other] and [plans]. *)
Record SQLRecord := {
  is_other : option bool;
  plans : option (list TopsqlSummaryPlanItem)
}.

Definition set_plan_digest (d : option string) (p : TopsqlSummaryPlanItem)
  : TopsqlSummaryPlanItem :=
  {| plan_digest := d;
     cpu_time_ms := cpu_time_ms p;
     exec_count_per_sec := exec_count_per_sec p;
     scan_records_per_sec := scan_records_per_sec p;
     scan_indexes_per_sec := scan_indexes_per_sec p;
     duration_per_exec_ms := duration_per_exec_ms p |}.

(** [!!r.plan_digest]: a digest that is present and not the empty string. *)
Definition has_digest (p : TopsqlSummaryPlanItem) : bool :=
  match plan_digest p with
  | Some d => negb (String.eqb d EmptyString)
  | None => false
  end.

Inductive InstanceType := tidb | tikv.

(** The result of [usePlanRecord]. *)
Record PlanRecords := {
  isMultiPlans : bool;
  records : list PlanRecord
}.

(** What [ListDetailTable] renders: the fragment's children, in order. *)
Inductive Element :=
| CardTable (items : list PlanRecord) (columns : list string)
| ListDetailContent (sqlRecord : SQLRecord) (planRecord : option PlanRecord).

(** *** Store

    The arrays and objects that the hook touches, as cells of a store, so
    that aliasing and in-place updates ([sort], [unshift]) are visible.  A
    location is an index into the store; allocation appends a cell.

    The cells are the arrays of objects and the objects themselves.  The
    [cpu_time_ms] arrays are kept inside the objects by value: the hook only
    reads them, and the store does not show that [{ ...p, cpuTime }], a
    shallow copy, leaves a row and its plan with one and the same array. *)

Abbreviation loc := nat (only parsing).

Inductive Cell :=
| CItem (p : TopsqlSummaryPlanItem)   (* a plan object of the API response *)
| CRecord (r : PlanRecord)            (* an object carrying [cpuTime] *)
| CArray (elems : list loc).          (* an array of object references *)

Abbreviation Store := (list Cell) (only parsing).

(** The record handed to the hook: [plans] is a reference to the array of
    the API response. *)
Record SQLRecordRef := {
  ref_is_other : option bool;
  ref_plans : option loc
}.

(** ** Overview context *)

Module Overview.

(** [React.createContext] and [useContext]: a context object carries its
    default value; a consumer reads the value of the nearest enclosing
    provider of that context and the default value when there is none.
    [providers] lists the values of the enclosing providers, innermost
    first. *)
Record Context (T : Type) := { defaultValue : T }.
Arguments defaultValue {T} _.

Definition createContext {T : Type} (d : T) : Context T :=
  {| defaultValue := d |}.

Definition useContext {T : Type} (c : Context T) (providers : list T) : T :=
  match providers with
  | v :: _ => v
  | [] => defaultValue c
  end.

(** [<c.Provider value={v}>]: inside, [v] is the innermost provided value. *)
Definition Provider {T : Type} (c : Context T) (value : T) (providers : list T)
  : list T :=
  value :: providers.

Section Context.

(** The data-source interface and the configuration shape are only
    carried around by this module. *)
Variables IOverviewDataSource IOverviewConfig : Type.

Record IOverviewContext := {
  ds : IOverviewDataSource;
  cfg : IOverviewConfig
}.

(** [createContext<IOverviewContext | null>(null)] *)
Definition OverviewContext : Context (option IOverviewContext) :=
  createContext None.

(** [OverviewContext.Provider] *)
Definition OverviewProvider := Provider OverviewContext.

End Context.

End Overview.

(** ** Sample data

    The two examples of the specification, a tie, and a store holding the
    first example. *)

Module Sample.

Definition plan (digest : option string) (samples : option (list Z))
  : TopsqlSummaryPlanItem :=
  {| plan_digest := digest;
     cpu_time_ms := samples;
     exec_count_per_sec := None;
     scan_records_per_sec := None;
     scan_indexes_per_sec := None;
     duration_per_exec_ms := None |}.

Definition plan_a := plan (Some "a"%string) (Some [1; 2]).
Definition plan_b := plan (Some "b"%string) (Some [5]).
Definition plan_c := plan (Some "c"%string) (Some [3]).
Definition plan_empty_digest := plan (Some EmptyString) (Some [1]).
Definition plan_absent := plan None None.

Definition no_plan_label : string := "(no plan)".
Definition overall_label : string := "(overall)".

(** A summary that adds up the samples of all plans. *)
Definition summary (record : SQLRecord) : PlanRecord :=
  {| cpuTime :=
       foldr (fun p acc => JS.reduce_add (default [] (cpu_time_ms p)) + acc) 0
         (default [] (plans record));
     planItem := plan None None |}.

Definition no_plans : SQLRecord :=
  {| is_other := None; plans := Some [] |}.
Definition one_plan : SQLRecord :=
  {| is_other := None; plans := Some [plan_empty_digest] |}.
Definition two_plans : SQLRecord :=
  {| is_other := None; plans := Some [plan_a; plan_b] |}.
Definition tied_plans : SQLRecord :=
  {| is_other := Some false;
     plans := Some [plan_absent; plan_a; plan_b; plan_c] |}.
Definition others : SQLRecord :=
  {| is_other := Some true; plans := Some [plan_a; plan_b] |}.

(** [two_plans] in a store: the plan objects at 0 and 1, the plans array
    at 2. *)
Definition store : list Cell :=
  [CItem plan_a; CItem plan_b; CArray [0; 1]%nat].
Definition two_plans_ref : SQLRecordRef :=
  {| ref_is_other := None; ref_plans := Some 2%nat |}.

(** A translation and a formatter to run the columns with. *)
Definition label_of (k : string) : string := k.
Definition format_as (id : string) (v : QArith_base.Q) (decimals : nat)
  : string :=
  id.

(** The first example with its plans swapped. *)
Definition two_plans_swapped : SQLRecord :=
  {| is_other := None; plans := Some [plan_b; plan_a] |}.

End Sample.

Section ListDetailTable.

(** *** [utils/specialRecord] *)

(** The placeholder digests that mark the two synthetic rows, and the
    summary that the overall row carries.  The specification fixes none of
    them, so they are parameters. *)
Variable NO_PLAN_LABEL OVERALL_LABEL : string.
Variable overallSummary : SQLRecord -> PlanRecord.

(** Modelled from the spec: [convertNoPlanRecord] of [utils/specialRecord]
    is not part of the sources.  "If its plan digest is absent/empty, mark
    it as the distinguished no-plan variant (synthetic fields filled with
    placeholders) rather than a real plan": the digest becomes the
    placeholder, a record with a digest is returned as it is. *)
Definition convertNoPlanRecord (r : PlanRecord) : PlanRecord :=
  if has_digest (planItem r) then r
  else {| cpuTime := cpuTime r;
          planItem := set_plan_digest (Some NO_PLAN_LABEL) (planItem r) |}.

(** Modelled from the spec: [isNoPlanRecord] of [utils/specialRecord] is
    not part of the sources.  The no-plan variant is "recognizable via a
    dedicated predicate check". *)
Definition isNoPlanRecord (r : PlanRecord) : bool :=
  match plan_digest (planItem r) with
  | Some d => String.eqb d NO_PLAN_LABEL
  | None => false
  end.

(** Modelled from the spec: [createOverallRecord] of [utils/specialRecord]
    is not part of the sources.  "One overall synthetic record summarizing
    the full SQLRecord (not a specific plan)". *)
Definition createOverallRecord (record : SQLRecord) : PlanRecord :=
  {| cpuTime := cpuTime (overallSummary record);
     planItem := set_plan_digest (Some OVERALL_LABEL)
                   (planItem (overallSummary record)) |}.

(** Modelled from the spec: [isOverallRecord] of [utils/specialRecord] is
    not part of the sources.  The overall variant is "recognizable via a
    dedicated predicate check". *)
Definition isOverallRecord (r : PlanRecord) : bool :=
  match plan_digest (planItem r) with
  | Some d => String.eqb d OVERALL_LABEL
  | None => false
  end.

(** *** [usePlanRecord] *)

(** [p.cpu_time_ms?.reduce((pt, t) => pt + t, 0) || 0] *)
Definition computeCpuTime (p : TopsqlSummaryPlanItem) : Z :=
  JS.or_zero (JS.reduce_add <$> cpu_time_ms p).

(** [(p) => ({ ...p, cpuTime })] *)
Definition toPlanRecord (p : TopsqlSummaryPlanItem) : PlanRecord :=
  {| cpuTime := computeCpuTime p; planItem := p |}.

(** [(a, b) => b.cpuTime - a.cpuTime] *)
Definition byCpuTimeDesc (a b : PlanRecord) : Z := cpuTime b - cpuTime a.

(** The body of the memoised callback, as a function of [record]. *)
Definition usePlanRecord (record : SQLRecord) : PlanRecords :=
  match plans record with
  | None => {| isMultiPlans := false; records := [] |}
  | Some record_plans =>
      if (length record_plans =? 0)%nat
      then {| isMultiPlans := false; records := [] |}
      else
        let isMultiPlans := (1 <? length record_plans)%nat in
        let plans := record_plans in
        let records :=
          convertNoPlanRecord <$>
            JS.sort byCpuTimeDesc (toPlanRecord <$> plans) in
        let records :=
          if isMultiPlans
          then JS.unshift (createOverallRecord record) records
          else records in
        {| isMultiPlans := isMultiPlans; records := records |}
  end.

(** *** [ListDetailTable] *)

(** The keys of [tableColumns]; the entries guarded by [instanceType] are
    filtered out when the guard is false. *)
Definition tableColumns (instanceType : InstanceType) : list string :=
  ["cpuTime"; "plan"; "exec_count_per_sec"]%string
  ++ (match instanceType with
      | tikv => ["scan_records_per_sec"; "scan_indexes_per_sec"]%string
      | tidb => []
      end)
  ++ (match instanceType with
      | tidb => ["latency"]%string
      | tikv => []
      end).

(** [canSelectItem: (r) => !isNoPlanRecord(r) && !isOverallRecord(r)] *)
Definition canSelectItem (r : PlanRecord) : bool :=
  negb (isNoPlanRecord r) && negb (isOverallRecord r).

(** The [planRecord] memo.  [selectedRecord] is what [useRecordSelection]
    returned ([None] when no row is selected); [planRecords[0]] is
    [undefined] on an empty array. *)
Definition planRecordOf (isMultiPlans : bool) (planRecords : list PlanRecord)
    (selectedRecord : option PlanRecord) : option PlanRecord :=
  if isMultiPlans then selectedRecord else planRecords !! 0%nat.

(** The component: [selectedRecord] stands for the state of the selection
    hook at this render. *)
Definition ListDetailTable (sqlRecord : SQLRecord) (instanceType : InstanceType)
    (selectedRecord : option PlanRecord) : list Element :=
  let r := usePlanRecord sqlRecord in
  let planRecord := planRecordOf (isMultiPlans r) (records r) selectedRecord in
  CardTable (records r) (tableColumns instanceType)
  :: (if negb (JS.truthy (is_other sqlRecord))
      then [ListDetailContent sqlRecord planRecord]
      else []).

(** *** Columns and cells of the table *)

(** [useTranslation] and [getValueFormat] belong to external packages: the
    translation [t] of a key, here [translate], and the text a named
    formatter makes of a number and a number of decimals, are parameters. *)
Variable translate : string -> string.
Variable getValueFormat : string -> QArith_base.Q -> nat -> string.

Definition UNKNOWN_LABEL : string := "Unknown".

(** The three formatters; the default parameter [(v: number = 0)] replaces
    [undefined] by 0. *)
Definition shortFormat (v : option QArith_base.Q) : string :=
  getValueFormat "short" (default (QArith_base.inject_Z 0) v) 1.

Definition fixedFormat (v : option QArith_base.Q) : string :=
  getValueFormat "none" (default (QArith_base.inject_Z 0) v) 1.

Definition msFormat (v : option QArith_base.Q) : string :=
  getValueFormat "ms" (default (QArith_base.inject_Z 0) v) 1.

(** What [onRender] returns, up to styling: a [Bar] with its label, the
    italic span of a synthetic row inside its tooltip, the digest of a plan
    inside its tooltip, or a plain text inside its tooltip. *)
Inductive CellView :=
| BarView (textWidth : nat) (value : Z) (capacity : QArith_base.Q)
    (label : string)
| SpecialView (title label : string)
| DigestView (title : option string) (label : string)
| TextView (title label : string).

(** An entry of [tableColumns], with the properties the source sets. *)
Record IColumn := {
  name : string;
  key : string;
  minWidth : nat;
  maxWidth : nat;
  onRender : PlanRecord -> CellView
}.

(** [rec.plan_digest || UNKNOWN_LABEL] *)
Definition digest_or (d : option string) (fallback : string) : string :=
  match d with
  | Some s => if String.eqb s EmptyString then fallback else s
  | None => fallback
  end.

(** [onRender] of the [cpuTime] column. *)
Definition renderCpuTime (capacity : QArith_base.Q) (rec : PlanRecord)
  : CellView :=
  BarView 80 (cpuTime rec) capacity
    (getValueFormat "ms" (QArith_base.inject_Z (cpuTime rec)) 2).

(** [onRender] of the [plan] column. *)
Definition renderPlan (rec : PlanRecord) : CellView :=
  if isOverallRecord rec
  then SpecialView (translate "topsql.detail.overall_tooltip")
         (translate "topsql.detail.overall")
  else if isNoPlanRecord rec
  then SpecialView (translate "topsql.detail.no_plan_tooltip")
         (translate "topsql.detail.no_plan")
  else DigestView (plan_digest (planItem rec))
         (digest_or (plan_digest (planItem rec)) UNKNOWN_LABEL).

(** [onRender] of the rate columns: the plain value in the tooltip, the
    short one in the cell. *)
Definition renderRate (v : option QArith_base.Q) : CellView :=
  TextView (fixedFormat v) (shortFormat v).

(** [onRender] of the [latency] column. *)
Definition renderLatency (rec : PlanRecord) : CellView :=
  TextView (msFormat (duration_per_exec_ms (planItem rec)))
    (msFormat (duration_per_exec_ms (planItem rec))).

(** [instanceType === 'tikv'] *)
Definition InstanceType_eqb (a b : InstanceType) : bool :=
  match a, b with
  | tidb, tidb | tikv, tikv => true
  | _, _ => false
  end.

(** [cond && column]: [false] or the column. *)
Definition and_column (cond : bool) (c : IColumn) : option IColumn :=
  if cond then Some c else None.

(** The array literal of [tableColumns], before the filter. *)
Definition tableColumnEntries (capacity : QArith_base.Q)
    (instanceType : InstanceType) : list (option IColumn) :=
  [ Some {| name := translate "topsql.detail.fields.cpu_time";
            key := "cpuTime";
            minWidth := 150;
            maxWidth := 250;
            onRender := renderCpuTime capacity |};
    Some {| name := translate "topsql.detail.fields.plan";
            key := "plan";
            minWidth := 150;
            maxWidth := 150;
            onRender := renderPlan |};
    Some {| name := translate "topsql.detail.fields.exec_count_per_sec";
            key := "exec_count_per_sec";
            minWidth := 50;
            maxWidth := 150;
            onRender := fun rec =>
              renderRate (exec_count_per_sec (planItem rec)) |};
    and_column (InstanceType_eqb instanceType tikv)
      {| name := translate "topsql.detail.fields.scan_records_per_sec";
         key := "scan_records_per_sec";
         minWidth := 50;
         maxWidth := 150;
         onRender := fun rec =>
           renderRate (scan_records_per_sec (planItem rec)) |};
    and_column (InstanceType_eqb instanceType tikv)
      {| name := translate "topsql.detail.fields.scan_indexes_per_sec";
         key := "scan_indexes_per_sec";
         minWidth := 50;
         maxWidth := 150;
         onRender := fun rec =>
           renderRate (scan_indexes_per_sec (planItem rec)) |};
    and_column (InstanceType_eqb instanceType tidb)
      {| name := translate "topsql.detail.fields.duration_per_exec_ms";
         key := "latency";
         minWidth := 50;
         maxWidth := 150;
         onRender := renderLatency |} ].

(** [[...].filter((c) => !!c)] *)
Definition tableColumnDefs (capacity : QArith_base.Q)
    (instanceType : InstanceType) : list IColumn :=
  omap id (tableColumnEntries capacity instanceType).

(** [getKey: (r) => r.plan_digest!]: the assertion is erased by the
    compiler, so the key is the digest as it is, [undefined] included. *)
Definition getKey (r : PlanRecord) : option string :=
  plan_digest (planItem r).

(** A record with 0 in the place of every absent rate. *)
Definition withZeroRates (rec : PlanRecord) : PlanRecord :=
  {| cpuTime := cpuTime rec;
     planItem :=
       {| plan_digest := plan_digest (planItem rec);
          cpu_time_ms := cpu_time_ms (planItem rec);
          exec_count_per_sec :=
            Some (default (QArith_base.inject_Z 0)
                    (exec_count_per_sec (planItem rec)));
          scan_records_per_sec :=
            Some (default (QArith_base.inject_Z 0)
                    (scan_records_per_sec (planItem rec)));
          scan_indexes_per_sec :=
            Some (default (QArith_base.inject_Z 0)
                    (scan_indexes_per_sec (planItem rec)));
          duration_per_exec_ms :=
            Some (default (QArith_base.inject_Z 0)
                    (duration_per_exec_ms (planItem rec))) |} |}.

(** *** The derivation over the store *)

(** Computations over the store; [None] is a dereference of something
    that is not there. *)
Definition M (A : Type) : Type := Store -> option (A * Store).

#[local] Instance M_ret : MRet M := fun A x σ => Some (x, σ).
#[local] Instance M_bind : MBind M := fun A B f m σ =>
  match m σ with
  | Some (x, σ') => f x σ'
  | None => None
  end.

Definition alloc (c : Cell) : M loc := fun σ => Some (length σ, σ ++ [c]).

Definition load_item (l : loc) : M TopsqlSummaryPlanItem := fun σ =>
  match σ !! l with
  | Some (CItem p) => Some (p, σ)
  | _ => None
  end.

Definition load_record (l : loc) : M PlanRecord := fun σ =>
  match σ !! l with
  | Some (CRecord r) => Some (r, σ)
  | _ => None
  end.

Definition load_array (l : loc) : M (list loc) := fun σ =>
  match σ !! l with
  | Some (CArray elems) => Some (elems, σ)
  | _ => None
  end.

Definition write (l : loc) (c : Cell) : M unit := fun σ =>
  if (l <? length σ)%nat then Some (tt, <[l := c]> σ) else None.

(** [[...arr]] *)
Definition spread_st (arr : loc) : M loc :=
  elems ← load_array arr; alloc (CArray elems).

(** [arr.map(f)]: a new array of the results. *)
Definition map_st (f : loc -> M loc) (arr : loc) : M loc :=
  elems ← load_array arr; out ← mapM f elems; alloc (CArray out).

(** [(p) => ({ ...p, cpuTime })]: a new object. *)
Definition toPlanRecord_st (p : loc) : M loc :=
  item ← load_item p; alloc (CRecord (toPlanRecord item)).

(** [arr.sort((a, b) => b.cpuTime - a.cpuTime)]: the comparator only reads
    [cpuTime] of the referenced objects; the array is reordered in place
    and returned. *)
Definition sort_st (arr : loc) : M loc :=
  elems ← load_array arr;
  rs ← mapM load_record elems;
  let sorted := JS.sort (fun x y => byCpuTimeDesc x.2 y.2) (zip elems rs) in
  _ ← write arr (CArray sorted.*1);
  mret arr.

(** Modelled from the spec: [convertNoPlanRecord] again, on references.
    "Mark it" is read as an update of the object that is passed in, which
    is the reading under which the argument's owner matters. *)
Definition convertNoPlanRecord_st (r : loc) : M loc :=
  rec ← load_record r;
  _ ← (if has_digest (planItem rec) then mret tt
       else write r (CRecord (convertNoPlanRecord rec)));
  mret r.

Definition load_items (elems : list loc) : M (list TopsqlSummaryPlanItem) :=
  mapM load_item elems.

(** The contents reachable from a record reference. *)
Definition load_sql (record : SQLRecordRef) : M SQLRecord :=
  match ref_plans record with
  | None => mret {| is_other := ref_is_other record; plans := None |}
  | Some arr =>
      elems ← load_array arr;
      ps ← load_items elems;
      mret {| is_other := ref_is_other record; plans := Some ps |}
  end.

(** Modelled from the spec: [createOverallRecord] again, on references:
    it reads the record and returns a new object. *)
Definition createOverallRecord_st (record : SQLRecordRef) : M loc :=
  sql ← load_sql record; alloc (CRecord (createOverallRecord sql)).

(** [arr.unshift(x)]: in place; returns the new length. *)
Definition unshift_st (arr : loc) (x : loc) : M nat :=
  elems ← load_array arr;
  _ ← write arr (CArray (JS.unshift x elems));
  mret (length (JS.unshift x elems)).

(** The body of the memoised callback on references; the second component
    of the result is the [records] array. *)
Definition usePlanRecord_st (record : SQLRecordRef) : M (bool * loc) :=
  match ref_plans record with
  | None => out ← alloc (CArray []); mret (false, out)
  | Some record_plans =>
      elems ← load_array record_plans;
      if (length elems =? 0)%nat
      then out ← alloc (CArray []); mret (false, out)
      else
        let isMultiPlans := (1 <? length elems)%nat in
        plans ← spread_st record_plans;
        mapped ← map_st toPlanRecord_st plans;
        sorted ← sort_st mapped;
        records ← map_st convertNoPlanRecord_st sorted;
        _ ← (if isMultiPlans
             then overall ← createOverallRecord_st record;
                  unshift_st records overall
             else mret 0%nat);
        mret (isMultiPlans, records)
  end.

(** The records an array refers to. *)
Definition load_records (arr : loc) : M (list PlanRecord) :=
  elems ← load_array arr; mapM load_record elems.

(** *** Auxiliary notions for the statements *)

(** The sum of a list of samples, as the specification words it. *)
Definition sum_of (samples : list Z) : Z := foldr Z.add 0 samples.

(** The rows of a result that stand for plans: everything but the overall
    row, which is there exactly when [isMultiPlans] holds. *)
Definition planRows (res : PlanRecords) : list PlanRecord :=
  if isMultiPlans res then tail (records res) else records res.

(** A row stands for a plan, in terms of the plan alone: its [cpuTime] is
    the sum of the plan's samples (0 without samples), it carries the
    samples and the rates of the plan as they are, and its digest is the
    digest of the plan, or the no-plan placeholder when the plan has no
    digest or an empty one. *)
Definition row_of_plan (r : PlanRecord) (p : TopsqlSummaryPlanItem) : Prop :=
  cpuTime r = sum_of (default [] (cpu_time_ms p)) /\
  cpu_time_ms (planItem r) = cpu_time_ms p /\
  exec_count_per_sec (planItem r) = exec_count_per_sec p /\
  scan_records_per_sec (planItem r) = scan_records_per_sec p /\
  scan_indexes_per_sec (planItem r) = scan_indexes_per_sec p /\
  duration_per_exec_ms (planItem r) = duration_per_exec_ms p /\
  plan_digest (planItem r)
  = match plan_digest p with
    | Some d => if String.eqb d EmptyString then Some NO_PLAN_LABEL else Some d
    | None => Some NO_PLAN_LABEL
    end.

(** The plan rows: one row per plan, converted after the sort. *)
Definition derivedRows (ps : list TopsqlSummaryPlanItem) : list PlanRecord :=
  convertNoPlanRecord <$> JS.sort byCpuTimeDesc (toPlanRecord <$> ps).

Definition item_at (σ : Store) (l : loc) (p : TopsqlSummaryPlanItem) : Prop :=
  σ !! l = Some (CItem p).

Definition record_at (σ : Store) (l : loc) (r : PlanRecord) : Prop :=
  σ !! l = Some (CRecord r).

(** Two stores that agree on every location below [n]. *)
Definition agree_below (n : nat) (σ σ' : Store) : Prop :=
  forall l, (l < n)%nat -> σ' !! l = σ !! l.

(** The references of an array after [sort], given what it holds
    before. *)
Definition sorted_refs (ls : list loc) (rs : list PlanRecord) : list loc :=
  (JS.sort (fun x y => byCpuTimeDesc x.2 y.2) (zip ls rs)).*1.

(** ** Facts about the JavaScript primitives *)

Lemma reduce_add_from (arr : list Z) (acc : Z) :
  fold_left (fun pt t => pt + t) arr acc = acc + sum_of arr.
Proof.
  revert acc. induction arr as [|t arr IH]; intros acc; simpl.
  - lia.
  - rewrite IH. unfold sum_of. simpl. lia.
Qed.

Lemma reduce_add_sum (arr : list Z) : JS.reduce_add arr = sum_of arr.
Proof. unfold JS.reduce_add. rewrite reduce_add_from. lia. Qed.

Lemma or_zero_id (x : Z) : JS.or_zero (Some x) = x.
Proof. unfold JS.or_zero. destruct (Z.eqb_spec x 0); congruence. Qed.

Lemma sort_cons {A} (cmp : A -> A -> Z) (x : A) (l : list A) :
  JS.sort cmp (x :: l) = JS.sort_insert cmp x (JS.sort cmp l).
Proof. reflexivity. Qed.

Section Sort.
Context {A : Type} (cmp : A -> A -> Z).

Lemma sort_insert_perm (x : A) (l : list A) :
  JS.sort_insert cmp x l ≡ₚ x :: l.
Proof.
  induction l as [|y l IH]; simpl; [done|].
  destruct (cmp x y <=? 0); [done|].
  rewrite IH. apply perm_swap.
Qed.

Lemma sort_perm (l : list A) : JS.sort cmp l ≡ₚ l.
Proof.
  induction l as [|x l IH]; simpl; [done|].
  rewrite sort_insert_perm. by rewrite IH.
Qed.

Lemma sort_length (l : list A) : length (JS.sort cmp l) = length l.
Proof. by rewrite sort_perm. Qed.

(** A consistent comparator: any two elements are ordered one way or
    the other, and the order is transitive. *)
Hypothesis cmp_total : forall x y, 0 < cmp x y -> cmp y x <= 0.
Hypothesis cmp_trans :
  forall x y z, cmp x y <= 0 -> cmp y z <= 0 -> cmp x z <= 0.

Lemma sort_insert_sorted (x : A) (l : list A) :
  StronglySorted (fun a b => cmp a b <= 0) l ->
  StronglySorted (fun a b => cmp a b <= 0) (JS.sort_insert cmp x l).
Proof.
  induction 1 as [|y l Hl IH Hy]; simpl.
  - repeat constructor.
  - destruct (Z.leb_spec (cmp x y) 0) as [Hxy|Hxy].
    + constructor; [by constructor|].
      constructor; [done|].
      eapply Forall_impl; [exact Hy|]. intros z Hz. by eapply cmp_trans.
    + constructor; [done|].
      rewrite sort_insert_perm. constructor; [by apply cmp_total|done].
Qed.

Lemma sort_sorted (l : list A) :
  StronglySorted (fun a b => cmp a b <= 0) (JS.sort cmp l).
Proof.
  induction l as [|x l IH]; simpl; [constructor|].
  by apply sort_insert_sorted.
Qed.
End Sort.

(** Stability: a class of elements that the comparator holds equal is
    left in its original order. *)
Lemma sort_insert_filter {A} (cmp : A -> A -> Z) (P : A -> Prop)
    `{!forall x, Decision (P x)} (x : A) (l : list A) :
  (forall a b, P a -> P b -> cmp a b <= 0) ->
  filter P (JS.sort_insert cmp x l) = filter P (x :: l).
Proof.
  intros Heq. induction l as [|y l IH]; simpl; [done|].
  destruct (Z.leb_spec (cmp x y) 0) as [Hxy|Hxy]; [done|].
  rewrite filter_cons, IH, !filter_cons.
  destruct (decide (P y)) as [Hy|Hy]; [|done].
  destruct (decide (P x)) as [Hx|Hx]; [|done].
  specialize (Heq x y Hx Hy). lia.
Qed.

Lemma sort_filter {A} (cmp : A -> A -> Z) (P : A -> Prop)
    `{!forall x, Decision (P x)} (l : list A) :
  (forall a b, P a -> P b -> cmp a b <= 0) ->
  filter P (JS.sort cmp l) = filter P l.
Proof.
  intros Heq. induction l as [|x l IH]; simpl; [done|].
  rewrite sort_insert_filter by done.
  by rewrite !filter_cons, IH.
Qed.

Lemma filter_fmap {A B} (f : A -> B) (P : B -> Prop)
    `{!forall y, Decision (P y)} (l : list A) :
  filter P (f <$> l) = f <$> filter (P ∘ f) l.
Proof.
  induction l as [|x l IH]; [done|].
  rewrite fmap_cons, !filter_cons, IH. simpl.
  by destruct (decide (P (f x))).
Qed.

(** Sorting commutes with a projection that the comparator factors
    through. *)
Lemma sort_insert_fmap {A B} (f : A -> B) (cmp : B -> B -> Z) (x : A)
    (l : list A) :
  f <$> JS.sort_insert (fun x y => cmp (f x) (f y)) x l
  = JS.sort_insert cmp (f x) (f <$> l).
Proof.
  induction l as [|y l IH]; [done|].
  cbn [JS.sort_insert]. rewrite fmap_cons. cbn [JS.sort_insert].
  destruct (cmp (f x) (f y) <=? 0); [done|].
  by rewrite fmap_cons, IH.
Qed.

Lemma sort_fmap {A B} (f : A -> B) (cmp : B -> B -> Z) (l : list A) :
  f <$> JS.sort (fun x y => cmp (f x) (f y)) l = JS.sort cmp (f <$> l).
Proof.
  induction l as [|x l IH]; [done|].
  by rewrite fmap_cons, !sort_cons, sort_insert_fmap, IH.
Qed.

(** ** Facts about the special records *)

Lemma convertNoPlanRecord_cpuTime (r : PlanRecord) :
  cpuTime (convertNoPlanRecord r) = cpuTime r.
Proof. unfold convertNoPlanRecord. by destruct (has_digest _). Qed.

Lemma has_digest_false (p : TopsqlSummaryPlanItem) :
  has_digest p = false <->
  plan_digest p = None \/ plan_digest p = Some EmptyString.
Proof.
  unfold has_digest. destruct (plan_digest p) as [d|]; [|by split; auto].
  destruct (String.eqb_spec d EmptyString) as [->|Hne]; simpl.
  - split; auto.
  - split; [discriminate|]. intros [?|?]; congruence.
Qed.

Lemma isNoPlanRecord_convert (r : PlanRecord) :
  has_digest (planItem r) = false ->
  isNoPlanRecord (convertNoPlanRecord r) = true.
Proof.
  intros H. unfold convertNoPlanRecord, isNoPlanRecord. rewrite H. simpl.
  apply String.eqb_refl.
Qed.

Lemma isOverallRecord_create (record : SQLRecord) :
  isOverallRecord (createOverallRecord record) = true.
Proof. unfold isOverallRecord. simpl. apply String.eqb_refl. Qed.

(** ** The shape of the derivation *)

Lemma byCpuTimeDesc_total (x y : PlanRecord) :
  0 < byCpuTimeDesc x y -> byCpuTimeDesc y x <= 0.
Proof. unfold byCpuTimeDesc. lia. Qed.

Lemma byCpuTimeDesc_trans (x y z : PlanRecord) :
  byCpuTimeDesc x y <= 0 -> byCpuTimeDesc y z <= 0 -> byCpuTimeDesc x z <= 0.
Proof. unfold byCpuTimeDesc. lia. Qed.

Lemma usePlanRecord_some (record : SQLRecord) (ps : list TopsqlSummaryPlanItem) :
  plans record = Some ps ->
  usePlanRecord record =
    {| isMultiPlans := (1 <? length ps)%nat;
       records := (if (1 <? length ps)%nat
                   then [createOverallRecord record] else [])
                  ++ derivedRows ps |}.
Proof.
  intros Hps. unfold usePlanRecord. rewrite Hps.
  destruct ps as [|p [|q ps]]; reflexivity.
Qed.

Lemma usePlanRecord_absent (record : SQLRecord) :
  plans record = None ->
  usePlanRecord record = {| isMultiPlans := false; records := [] |}.
Proof. intros Hps. unfold usePlanRecord. by rewrite Hps. Qed.

Lemma planRows_some (record : SQLRecord) (ps : list TopsqlSummaryPlanItem) :
  plans record = Some ps -> planRows (usePlanRecord record) = derivedRows ps.
Proof.
  intros Hps. rewrite (usePlanRecord_some _ _ Hps). unfold planRows. simpl.
  by destruct (1 <? length ps)%nat.
Qed.

Lemma derivedRows_perm (ps : list TopsqlSummaryPlanItem) :
  derivedRows ps ≡ₚ (fun p => convertNoPlanRecord (toPlanRecord p)) <$> ps.
Proof.
  unfold derivedRows. rewrite sort_perm. by rewrite <- list_fmap_compose.
Qed.

Lemma derivedRows_sorted (ps : list TopsqlSummaryPlanItem) :
  StronglySorted (fun a b => cpuTime a >= cpuTime b) (derivedRows ps).
Proof.
  unfold derivedRows.
  pose proof (sort_sorted byCpuTimeDesc byCpuTimeDesc_total
                byCpuTimeDesc_trans (toPlanRecord <$> ps)) as Hs.
  induction Hs as [|r l Hl IH Hr]; simpl; constructor; [done|].
  rewrite Forall_fmap. eapply Forall_impl; [exact Hr|].
  intros b Hb. simpl. rewrite !convertNoPlanRecord_cpuTime.
  unfold byCpuTimeDesc in Hb. lia.
Qed.

(** ** The claims about the derivation *)

(** C6: a record whose plans list is empty derives [isMultiPlans = false]
    and no records at all: no synthetic row is injected. *)
Theorem usePlanRecord_empty (record : SQLRecord) :
  plans record = Some [] ->
  usePlanRecord record = {| isMultiPlans := false; records := [] |}.
Proof. intros Hps. unfold usePlanRecord. by rewrite Hps. Qed.

(** C7: a record with exactly one plan derives exactly one record, the
    row of that plan, with no overall row in front of it, and
    [isMultiPlans = false]. *)
Theorem usePlanRecord_single (record : SQLRecord) (p : TopsqlSummaryPlanItem) :
  plans record = Some [p] ->
  isMultiPlans (usePlanRecord record) = false /\
  length (records (usePlanRecord record)) = 1%nat /\
  records (usePlanRecord record) = [convertNoPlanRecord (toPlanRecord p)].
Proof. intros Hps. by rewrite (usePlanRecord_some _ _ Hps). Qed.

Lemma row_of_plan_derived (p : TopsqlSummaryPlanItem) :
  row_of_plan (convertNoPlanRecord (toPlanRecord p)) p.
Proof.
  unfold row_of_plan. split.
  - rewrite convertNoPlanRecord_cpuTime.
    unfold toPlanRecord, computeCpuTime. cbn [cpuTime].
    destruct (cpu_time_ms p) as [arr|];
      cbn [fmap option_fmap option_map default]; [|done].
    by rewrite or_zero_id, reduce_add_sum.
  - unfold convertNoPlanRecord, has_digest. cbn [toPlanRecord planItem].
    destruct (plan_digest p) as [d|] eqn:Hd.
    + destruct (String.eqb d EmptyString); simpl; rewrite ?Hd;
        repeat split; done.
    + simpl. repeat split; done.
Qed.

Lemma derivedRows_rows_of_plans (ps : list TopsqlSummaryPlanItem) :
  exists sorted_plans,
    sorted_plans ≡ₚ ps /\ Forall2 row_of_plan (derivedRows ps) sorted_plans.
Proof.
  exists (planItem <$> JS.sort byCpuTimeDesc (toPlanRecord <$> ps)). split.
  - rewrite sort_perm, <- list_fmap_compose.
    by rewrite (list_fmap_ext (planItem ∘ toPlanRecord) id ps), list_fmap_id.
  - unfold derivedRows. apply Forall2_fmap, Forall_Forall2_diag.
    rewrite sort_perm, Forall_fmap. apply Forall_forall. intros p _.
    apply row_of_plan_derived.
Qed.

(** C1: a record with N > 1 plans derives [isMultiPlans = true] and N + 1
    records: the overall record first, then N plan rows.  The plan rows are
    the input plans in descending order of [cpuTime]: taken one by one they
    stand for the plans of a rearrangement of the input, each with the
    properties of its plan and the sum of its samples. *)
Theorem usePlanRecord_multi (record : SQLRecord)
    (ps : list TopsqlSummaryPlanItem) :
  plans record = Some ps ->
  (1 < length ps)%nat ->
  isMultiPlans (usePlanRecord record) = true /\
  length (records (usePlanRecord record)) = S (length ps) /\
  exists rows,
    records (usePlanRecord record) = createOverallRecord record :: rows /\
    isOverallRecord (createOverallRecord record) = true /\
    length rows = length ps /\
    rows ≡ₚ (fun p => convertNoPlanRecord (toPlanRecord p)) <$> ps /\
    StronglySorted (fun a b => cpuTime a >= cpuTime b) rows /\
    exists sorted_plans,
      sorted_plans ≡ₚ ps /\
      Forall2 row_of_plan rows sorted_plans.
Proof.
  intros Hps Hn. rewrite (usePlanRecord_some _ _ Hps).
  apply Nat.ltb_lt in Hn. rewrite Hn. simpl.
  pose proof (derivedRows_perm ps) as Hperm.
  assert (length (derivedRows ps) = length ps) as Hlen
    by by rewrite Hperm, length_fmap.
  split; [done|]. split; [by rewrite Hlen|].
  exists (derivedRows ps).
  split; [done|]. split; [apply isOverallRecord_create|].
  split; [done|]. split; [done|].
  split; [apply derivedRows_sorted|apply derivedRows_rows_of_plans].
Qed.

(** C2: every plan of the input has its row among the derived records,
    and the [cpuTime] of that row is the sum of the plan's [cpu_time_ms]
    samples; it is 0 when the array is absent. *)
Theorem usePlanRecord_cpuTime (record : SQLRecord)
    (ps : list TopsqlSummaryPlanItem) (p : TopsqlSummaryPlanItem) :
  plans record = Some ps ->
  p ∈ ps ->
  convertNoPlanRecord (toPlanRecord p) ∈ records (usePlanRecord record) /\
  planItem (toPlanRecord p) = p /\
  cpuTime (toPlanRecord p) = sum_of (default [] (cpu_time_ms p)) /\
  cpuTime (convertNoPlanRecord (toPlanRecord p))
    = sum_of (default [] (cpu_time_ms p)) /\
  (cpu_time_ms p = None ->
   cpuTime (convertNoPlanRecord (toPlanRecord p)) = 0).
Proof.
  intros Hps Hp. rewrite (usePlanRecord_some _ _ Hps). simpl.
  split.
  - apply elem_of_app. right. rewrite derivedRows_perm.
    by apply (list_elem_of_fmap_2
                (fun p => convertNoPlanRecord (toPlanRecord p))).
  - split; [done|].
    rewrite convertNoPlanRecord_cpuTime.
    unfold toPlanRecord, computeCpuTime. cbn [cpuTime].
    destruct (cpu_time_ms p) as [arr|]; cbn [fmap option_fmap option_map default].
    + rewrite or_zero_id, reduce_add_sum. done.
    + done.
Qed.

(** C3: the sort is stable: for every value of [cpuTime], the plan rows
    with that value come out in the order in which their plans stand in
    the input. *)
Theorem usePlanRecord_stable (record : SQLRecord)
    (ps : list TopsqlSummaryPlanItem) (c : Z) :
  plans record = Some ps ->
  filter (fun r => cpuTime r = c) (planRows (usePlanRecord record))
  = (fun p => convertNoPlanRecord (toPlanRecord p))
      <$> filter (fun p => computeCpuTime p = c) ps.
Proof.
  intros Hps. rewrite (planRows_some _ _ Hps). unfold derivedRows.
  rewrite filter_fmap.
  rewrite (list_filter_iff _ (fun r => cpuTime r = c))
    by (intros r; simpl; by rewrite convertNoPlanRecord_cpuTime).
  rewrite sort_filter by (unfold byCpuTimeDesc; intros; lia).
  by rewrite filter_fmap, <- list_fmap_compose.
Qed.

(** ** The claims about the component *)

Lemma canSelectItem_false (r : PlanRecord) :
  isNoPlanRecord r = true \/ isOverallRecord r = true ->
  canSelectItem r = false.
Proof.
  unfold canSelectItem. intros [->| ->]; [done|].
  by destruct (isNoPlanRecord r).
Qed.

(** C4: the row derived from a plan whose digest is absent or empty is
    the no-plan variant, and the selection predicate of the table rejects
    every no-plan row and every overall row, the derived ones in
    particular. *)
Theorem noPlan_and_overall_not_selectable (record : SQLRecord)
    (ps : list TopsqlSummaryPlanItem) (p : TopsqlSummaryPlanItem) :
  plans record = Some ps ->
  p ∈ ps ->
  plan_digest p = None \/ plan_digest p = Some EmptyString ->
  (convertNoPlanRecord (toPlanRecord p) ∈ records (usePlanRecord record) /\
   isNoPlanRecord (convertNoPlanRecord (toPlanRecord p)) = true /\
   canSelectItem (convertNoPlanRecord (toPlanRecord p)) = false) /\
  canSelectItem (createOverallRecord record) = false /\
  (forall r, isNoPlanRecord r = true \/ isOverallRecord r = true ->
             canSelectItem r = false) /\
  (forall r, canSelectItem r = true ->
             isNoPlanRecord r = false /\ isOverallRecord r = false).
Proof.
  intros Hps Hp Hd. apply has_digest_false in Hd.
  assert (isNoPlanRecord (convertNoPlanRecord (toPlanRecord p)) = true)
    as Hno by by apply isNoPlanRecord_convert.
  split; [split; [|split]|split; [|split]].
  - rewrite (usePlanRecord_some _ _ Hps). simpl.
    apply elem_of_app. right. rewrite derivedRows_perm.
    by apply (list_elem_of_fmap_2
                (fun p => convertNoPlanRecord (toPlanRecord p))).
  - done.
  - apply canSelectItem_false. by left.
  - apply canSelectItem_false. right. apply isOverallRecord_create.
  - apply canSelectItem_false.
  - intros r. unfold canSelectItem.
    by destruct (isNoPlanRecord r), (isOverallRecord r).
Qed.

(** C5: the plan record handed to the detail panel is the selected record
    when the record has more than one plan, and the first derived record
    ([planRecords[0]]), whatever is selected, when it has at most one; with
    exactly one plan that is the row of this plan. *)
Theorem planRecord_forwarded (record : SQLRecord)
    (selectedRecord : option PlanRecord) :
  let res := usePlanRecord record in
  let n := length (default [] (plans record)) in
  isMultiPlans res = (1 <? n)%nat /\
  ((1 < n)%nat ->
   planRecordOf (isMultiPlans res) (records res) selectedRecord
   = selectedRecord) /\
  ((n <= 1)%nat ->
   planRecordOf (isMultiPlans res) (records res) selectedRecord
   = records res !! 0%nat) /\
  (forall p, plans record = Some [p] ->
   planRecordOf (isMultiPlans res) (records res) selectedRecord
   = Some (convertNoPlanRecord (toPlanRecord p))) /\
  (forall instanceType, JS.truthy (is_other record) = false ->
   ListDetailTable record instanceType selectedRecord
   = [CardTable (records res) (tableColumns instanceType);
      ListDetailContent record
        (planRecordOf (isMultiPlans res) (records res) selectedRecord)]).
Proof.
  intros res n.
  assert (isMultiPlans res = (1 <? n)%nat) as Hm.
  { subst res n. destruct (plans record) as [ps|] eqn:Hps.
    - by rewrite (usePlanRecord_some _ _ Hps).
    - unfold usePlanRecord. by rewrite Hps. }
  split; [done|]. rewrite Hm. split; [|split; [|split]].
  - intros Hn. apply Nat.ltb_lt in Hn. by rewrite Hn.
  - intros Hn. apply Nat.ltb_ge in Hn. by rewrite Hn.
  - intros p Hp. subst res n. rewrite (usePlanRecord_some _ _ Hp), Hp. done.
  - intros instanceType Hother. unfold ListDetailTable.
    fold res. by rewrite Hother, Hm.
Qed.

(** C10: when [is_other] is true the component renders the plan table
    and nothing else; the detail panel is part of the output exactly when
    [is_other] is falsy. *)
Theorem detail_panel_iff_not_other (record : SQLRecord)
    (instanceType : InstanceType) (selectedRecord : option PlanRecord) :
  (is_other record = Some true ->
   ListDetailTable record instanceType selectedRecord
   = [CardTable (records (usePlanRecord record))
        (tableColumns instanceType)]) /\
  ((exists sqlRecord planRecord,
      ListDetailContent sqlRecord planRecord
      ∈ ListDetailTable record instanceType selectedRecord)
   <-> JS.truthy (is_other record) = false).
Proof.
  unfold ListDetailTable. split.
  - by intros ->.
  - destruct (JS.truthy (is_other record)); simpl; split.
    + intros (s & pr & Hin). apply list_elem_of_singleton in Hin. done.
    + done.
    + done.
    + intros _. eexists _, _. apply list_elem_of_further, list_elem_of_singleton.
      reflexivity.
Qed.

(** ** The derivation over the store *)

Lemma bind_some {A B} (m : M A) (f : A -> M B) (σ σ1 : Store) (x : A) :
  m σ = Some (x, σ1) -> (m ≫= f) σ = f x σ1.
Proof. intros H. unfold mbind, M_bind. by rewrite H. Qed.

Lemma mapM_cons_some {A B} (f : A -> M B) (x : A) (l : list A)
    (σ σ1 σ2 : Store) (y : B) (k : list B) :
  f x σ = Some (y, σ1) ->
  mapM f l σ1 = Some (k, σ2) ->
  mapM f (x :: l) σ = Some (y :: k, σ2).
Proof.
  intros Hx Hl. cbn [mapM]. rewrite (bind_some _ _ _ _ _ Hx).
  by rewrite (bind_some _ _ _ _ _ Hl).
Qed.

Lemma agree_below_trans (n : nat) (σ1 σ2 σ3 : Store) :
  agree_below n σ1 σ2 -> agree_below n σ2 σ3 -> agree_below n σ1 σ3.
Proof. intros H12 H23 l Hl. by rewrite H23, H12. Qed.

Lemma agree_below_app (n : nat) (σ κ : Store) :
  (n <= length σ)%nat -> agree_below n σ (σ ++ κ).
Proof. intros Hn l Hl. apply lookup_app_l. lia. Qed.

Lemma agree_below_insert (n : nat) (σ : Store) (l : loc) (c : Cell) :
  (n <= l)%nat -> agree_below n σ (<[l := c]> σ).
Proof. intros Hn l' Hl'. apply list_lookup_insert_ne. lia. Qed.

Lemma write_some (σ : Store) (l : loc) (c c' : Cell) :
  σ !! l = Some c -> write l c' σ = Some (tt, <[l := c']> σ).
Proof.
  intros Hl. apply lookup_lt_Some in Hl. unfold write.
  by destruct (Nat.ltb_spec l (length σ)); [|lia].
Qed.

Lemma load_items_ok (σ : Store) (ls : list loc)
    (ps : list TopsqlSummaryPlanItem) :
  Forall2 (item_at σ) ls ps -> load_items ls σ = Some (ps, σ).
Proof.
  unfold load_items. induction 1 as [|l p ls ps Hl _ IH]; [done|].
  eapply mapM_cons_some; [|exact IH]. unfold load_item. by rewrite Hl.
Qed.

Lemma load_items_inv (σ σ' : Store) (ls : list loc)
    (ps : list TopsqlSummaryPlanItem) :
  load_items ls σ = Some (ps, σ') -> σ' = σ /\ Forall2 (item_at σ) ls ps.
Proof.
  unfold load_items. revert ps. induction ls as [|l ls IH]; intros ps.
  - intros [= <- <-]. by split.
  - cbn [mapM]. unfold mbind at 1, M_bind at 1.
    unfold load_item at 1. destruct (σ !! l) as [[p| |]|] eqn:Hl; try done.
    unfold mbind at 1, M_bind at 1.
    destruct (mapM load_item ls σ) as [[k σ1]|] eqn:Hk; [|done].
    intros [= <- <-]. destruct (IH _ eq_refl) as [-> Hall].
    split; [done|]. by constructor.
Qed.

Lemma load_records_ok (σ : Store) (ls : list loc) (rs : list PlanRecord) :
  Forall2 (record_at σ) ls rs -> mapM load_record ls σ = Some (rs, σ).
Proof.
  induction 1 as [|l r ls rs Hl _ IH]; [done|].
  eapply mapM_cons_some; [|exact IH]. unfold load_record. by rewrite Hl.
Qed.

Lemma mapM_toPlanRecord_ext (σ κ : Store) (ls : list loc)
    (ps : list TopsqlSummaryPlanItem) :
  Forall2 (item_at σ) ls ps ->
  mapM toPlanRecord_st ls (σ ++ κ)
  = Some (seq (length (σ ++ κ)) (length ls),
          (σ ++ κ) ++ ((fun p => CRecord (toPlanRecord p)) <$> ps)).
Proof.
  intros Hall. revert κ.
  induction Hall as [|l p ls ps Hl Hall IH]; intros κ.
  - simpl. by rewrite app_nil_r.
  - eapply mapM_cons_some.
    + unfold toPlanRecord_st. erewrite bind_some; [reflexivity|].
      unfold load_item. by rewrite (lookup_app_l_Some _ _ _ _ Hl).
    + rewrite <- (app_assoc σ κ), IH.
      rewrite !length_app, <- !app_assoc. simpl.
      by rewrite Nat.add_1_r, Nat.add_succ_r.
Qed.

Lemma record_at_fresh (σ κ : Store) (rs : list PlanRecord) :
  Forall2 (record_at (σ ++ (CRecord <$> rs) ++ κ))
    (seq (length σ) (length rs)) rs.
Proof.
  revert σ. induction rs as [|r rs IH]; intros σ; [constructor|].
  simpl. constructor.
  - unfold record_at. by rewrite lookup_app_r, Nat.sub_diag by lia.
  - specialize (IH (σ ++ [CRecord r])).
    rewrite length_app, Nat.add_1_r, <- app_assoc in IH. exact IH.
Qed.

Lemma convertNoPlanRecord_st_spec (σ : Store) (l : loc) (r : PlanRecord) :
  record_at σ l r ->
  exists σ1,
    convertNoPlanRecord_st l σ = Some (l, σ1) /\
    length σ1 = length σ /\
    record_at σ1 l (convertNoPlanRecord r) /\
    (forall l', l' ≠ l -> σ1 !! l' = σ !! l').
Proof.
  intros Hl. unfold convertNoPlanRecord_st.
  assert (load_record l σ = Some (r, σ)) as Hload
    by (unfold load_record; by rewrite Hl).
  rewrite (bind_some _ _ _ _ _ Hload).
  destruct (has_digest (planItem r)) eqn:Hd.
  - exists σ. split; [done|]. split; [done|]. split; [|done].
    unfold convertNoPlanRecord. by rewrite Hd.
  - exists (<[l := CRecord (convertNoPlanRecord r)]> σ).
    erewrite bind_some by (eapply write_some; exact Hl).
    split; [done|]. split; [apply length_insert|]. split.
    + apply list_lookup_insert_eq. by eapply lookup_lt_Some.
    + intros l' Hne. by apply list_lookup_insert_ne.
Qed.

Lemma mapM_convertNoPlanRecord (σ : Store) (ls : list loc)
    (rs : list PlanRecord) :
  NoDup ls ->
  Forall2 (record_at σ) ls rs ->
  exists σ',
    mapM convertNoPlanRecord_st ls σ = Some (ls, σ') /\
    length σ' = length σ /\
    (forall l, l ∉ ls -> σ' !! l = σ !! l) /\
    Forall2 (record_at σ') ls (convertNoPlanRecord <$> rs).
Proof.
  intros Hnd. revert σ rs.
  induction Hnd as [|l ls Hl Hnd IH]; intros σ rs Hall.
  - apply Forall2_nil_inv_l in Hall as ->. exists σ.
    split; [done|]. split; [done|]. split; [done|]. constructor.
  - apply Forall2_cons_inv_l in Hall as (r & rs' & Hr & Hall & ->).
    destruct (convertNoPlanRecord_st_spec σ l r Hr)
      as (σ1 & Hrun & Hlen1 & Hr1 & Hoff1).
    destruct (IH σ1 rs') as (σ' & Hrun' & Hlen' & Hoff' & Hall').
    { eapply Forall2_impl; [|intros ? ? HH; exact HH].
      apply Forall2_same_length_lookup. split; [by eapply Forall2_length|].
      intros i l' r' Hi Hi'. unfold record_at. rewrite Hoff1.
      - exact (Forall2_lookup_lr _ _ _ _ _ _ Hall Hi Hi').
      - intros ->. apply Hl. by eapply list_elem_of_lookup_2. }
    exists σ'. split; [by eapply mapM_cons_some|].
    split; [congruence|]. split.
    + intros l' Hl'. apply not_elem_of_cons in Hl' as [Hne Hl'].
      rewrite Hoff' by done. by apply Hoff1.
    + rewrite fmap_cons. constructor; [|done].
      unfold record_at. by rewrite Hoff'.
Qed.

Lemma sorted_refs_perm (ls : list loc) (rs : list PlanRecord) :
  length ls = length rs -> sorted_refs ls rs ≡ₚ ls.
Proof.
  intros Hlen. unfold sorted_refs. rewrite sort_perm.
  rewrite fst_zip by lia. done.
Qed.

Lemma sorted_refs_records (σ : Store) (ls : list loc) (rs : list PlanRecord) :
  Forall2 (record_at σ) ls rs ->
  Forall2 (record_at σ) (sorted_refs ls rs) (JS.sort byCpuTimeDesc rs).
Proof.
  intros Hall. pose proof (Forall2_length _ _ _ Hall) as Hlen.
  unfold sorted_refs.
  rewrite <- (snd_zip ls rs) at 2 by lia.
  rewrite <- (sort_fmap snd byCpuTimeDesc).
  apply Forall2_fmap, Forall_Forall2_diag.
  rewrite sort_perm. apply Forall_forall. intros [l r] Hin. simpl.
  apply list_elem_of_lookup in Hin as [i Hi].
  apply lookup_zip_with_Some in Hi as (l' & r' & [= <- <-] & Hl & Hr).
  exact (Forall2_lookup_lr _ _ _ _ _ _ Hall Hl Hr).
Qed.

Lemma sort_st_spec (σ : Store) (arr : loc) (ls : list loc)
    (rs : list PlanRecord) :
  σ !! arr = Some (CArray ls) ->
  Forall2 (record_at σ) ls rs ->
  sort_st arr σ = Some (arr, <[arr := CArray (sorted_refs ls rs)]> σ).
Proof.
  intros Harr Hall. unfold sort_st.
  erewrite bind_some by (unfold load_array; by rewrite Harr).
  erewrite bind_some by (by apply load_records_ok).
  erewrite bind_some by (eapply write_some; exact Harr).
  done.
Qed.

Lemma load_array_some (σ : Store) (arr : loc) (elems : list loc) :
  σ !! arr = Some (CArray elems) -> load_array arr σ = Some (elems, σ).
Proof. intros H. unfold load_array. by rewrite H. Qed.

Lemma load_sql_inv (σ σ' : Store) (record : SQLRecordRef) (sql : SQLRecord) :
  load_sql record σ = Some (sql, σ') ->
  σ' = σ /\
  match ref_plans record with
  | None => sql = {| is_other := ref_is_other record; plans := None |}
  | Some arr =>
      exists elems ps,
        σ !! arr = Some (CArray elems) /\
        Forall2 (item_at σ) elems ps /\
        sql = {| is_other := ref_is_other record; plans := Some ps |}
  end.
Proof.
  unfold load_sql. destruct (ref_plans record) as [arr|].
  - unfold mbind at 1, M_bind at 1. unfold load_array at 1.
    destruct (σ !! arr) as [[| |elems]|] eqn:Harr; try done.
    unfold mbind at 1, M_bind at 1.
    destruct (load_items elems σ) as [[ps σ1]|] eqn:Hps; [|done].
    intros [= <- <-]. apply load_items_inv in Hps as [-> Hall].
    split; [done|]. by exists elems, ps.
  - by intros [= <- <-].
Qed.

Lemma load_sql_ok (σ : Store) (record : SQLRecordRef) (arr : loc)
    (elems : list loc) (ps : list TopsqlSummaryPlanItem) :
  ref_plans record = Some arr ->
  σ !! arr = Some (CArray elems) ->
  Forall2 (item_at σ) elems ps ->
  load_sql record σ
  = Some ({| is_other := ref_is_other record; plans := Some ps |}, σ).
Proof.
  intros Hr Harr Hall. unfold load_sql. rewrite Hr.
  erewrite bind_some by (by apply load_array_some).
  erewrite bind_some by (by apply load_items_ok).
  done.
Qed.

Lemma agree_below_items (σ σ' : Store) (elems : list loc)
    (ps : list TopsqlSummaryPlanItem) :
  agree_below (length σ) σ σ' ->
  Forall2 (item_at σ) elems ps -> Forall2 (item_at σ') elems ps.
Proof.
  intros Hag Hall. eapply Forall2_impl; [exact Hall|].
  intros l p Hl. unfold item_at in *. rewrite Hag; [done|].
  by eapply lookup_lt_Some.
Qed.

(** The four array operations of the non-empty branch, up to the
    conversion of the sorted rows: the result array is new, its elements
    are new objects holding the derived rows, and nothing below the old
    end of the store has been touched. *)
Lemma derive_rows_st (σ : Store) (arr : loc) (elems : list loc)
    (ps : list TopsqlSummaryPlanItem) :
  σ !! arr = Some (CArray elems) ->
  Forall2 (item_at σ) elems ps ->
  exists (refs : list loc) (σ4 : Store),
    agree_below (length σ) σ σ4 /\
    (length σ < length σ4)%nat /\
    Forall (fun l => (length σ <= l)%nat) refs /\
    Forall2 (record_at σ4) refs (derivedRows ps) /\
    forall (B : Type) (k : loc -> M B),
      (plans ← spread_st arr;
       mapped ← map_st toPlanRecord_st plans;
       sorted ← sort_st mapped;
       records ← map_st convertNoPlanRecord_st sorted;
       k records) σ
      = k (length σ4) (σ4 ++ [CArray refs]).
Proof.
  intros Harr Hall.
  pose proof (Forall2_length _ _ _ Hall) as Hlen.
  (* [...record.plans] *)
  set (σ1 := σ ++ [CArray elems]).
  assert (spread_st arr σ = Some (length σ, σ1)) as H1.
  { unfold spread_st. by erewrite bind_some by (by apply load_array_some). }
  assert (length σ1 = S (length σ)) as Hlen1
    by (subst σ1; rewrite length_app; simpl; lia).
  (* .map((p) => ({ ...p, cpuTime })) *)
  set (R := toPlanRecord <$> ps).
  set (L := seq (length σ1) (length R)).
  set (σ2 := σ1 ++ (CRecord <$> R) ++ [CArray L]).
  set (mapped := (length σ1 + length R)%nat).
  assert (map_st toPlanRecord_st (length σ) σ1 = Some (mapped, σ2)) as H2.
  { unfold map_st.
    erewrite bind_some
      by (apply load_array_some; subst σ1;
          by rewrite lookup_app_r, Nat.sub_diag by lia).
    erewrite bind_some by (by apply (mapM_toPlanRecord_ext σ [CArray elems])).
    unfold alloc. subst σ2 mapped L R.
    by rewrite length_app, !length_fmap, <- list_fmap_compose, <- app_assoc, Hlen. }
  assert (σ2 !! mapped = Some (CArray L)) as Hmapped.
  { subst σ2 mapped. rewrite app_assoc, lookup_app_r;
      rewrite length_app, length_fmap; [|lia].
    by rewrite Nat.sub_diag. }
  assert (Forall2 (record_at σ2) L R) as HR2 by apply record_at_fresh.
  assert (length σ2 = S mapped) as Hlen2.
  { subst σ2 mapped. rewrite !length_app, length_fmap. simpl. lia. }
  (* .sort((a, b) => b.cpuTime - a.cpuTime) *)
  set (refs := sorted_refs L R).
  set (σ3 := <[mapped := CArray refs]> σ2).
  assert (sort_st mapped σ2 = Some (mapped, σ3)) as H3
    by by apply sort_st_spec.
  assert (refs ≡ₚ L) as Hperm
    by (apply sorted_refs_perm; subst L; by rewrite length_seq).
  assert (Forall (fun l => (length σ1 <= l < mapped)%nat) refs) as Hrange.
  { rewrite Hperm. apply Forall_forall. intros l Hl.
    subst L mapped. apply elem_of_seq in Hl. lia. }
  assert (NoDup refs) as Hnd by (rewrite Hperm; apply NoDup_seq).
  assert (Forall2 (record_at σ3) refs (JS.sort byCpuTimeDesc R)) as HR3.
  { pose proof (sorted_refs_records σ2 L R HR2) as Hs. fold refs in Hs.
    apply Forall2_same_length_lookup. split; [by eapply Forall2_length|].
    intros i l r Hl Hr. unfold record_at. subst σ3.
    rewrite list_lookup_insert_ne.
    - exact (Forall2_lookup_lr _ _ _ _ _ _ Hs Hl Hr).
    - pose proof (proj1 (Forall_lookup _ _) Hrange i l Hl). simpl in *. lia. }
  assert (σ3 !! mapped = Some (CArray refs)) as Hsorted
    by (subst σ3; apply list_lookup_insert_eq; lia).
  (* .map(convertNoPlanRecord) *)
  destruct (mapM_convertNoPlanRecord σ3 refs _ Hnd HR3)
    as (σ4 & H4 & Hlen4 & Hoff4 & HR4).
  assert (length σ4 = S mapped) as Hlen4'
    by (subst σ3; rewrite Hlen4, length_insert; done).
  exists refs, σ4. split; [|split; [|split; [|split]]].
  - intros l Hl. rewrite Hoff4.
    + subst σ3. rewrite list_lookup_insert_ne by (subst mapped; lia).
      subst σ2 σ1. rewrite <- app_assoc. by apply lookup_app_l.
    + intros Hin. pose proof (proj1 (Forall_forall _ _) Hrange l Hin) as Hx.
      simpl in Hx. lia.
  - subst mapped. lia.
  - eapply Forall_impl; [exact Hrange|]. simpl. intros l Hl. lia.
  - exact HR4.
  - intros B k.
    rewrite (bind_some _ _ _ _ _ H1), (bind_some _ _ _ _ _ H2),
      (bind_some _ _ _ _ _ H3).
    apply bind_some. unfold map_st.
    erewrite bind_some by (by apply load_array_some).
    by erewrite bind_some by exact H4.
Qed.

Lemma load_records_some (σ : Store) (arr : loc) (ls : list loc)
    (rs : list PlanRecord) :
  σ !! arr = Some (CArray ls) ->
  Forall2 (record_at σ) ls rs ->
  load_records arr σ = Some (rs, σ).
Proof.
  intros Harr Hall. unfold load_records.
  erewrite bind_some by (by apply load_array_some).
  by apply load_records_ok.
Qed.

Lemma agree_below_lookup (σ σ' : Store) (l : loc) (c : Cell) :
  agree_below (length σ) σ σ' -> σ !! l = Some c -> σ' !! l = Some c.
Proof. intros Hag Hl. rewrite Hag; [done|]. by eapply lookup_lt_Some. Qed.

Lemma record_at_app (σ κ : Store) (ls : list loc) (rs : list PlanRecord) :
  Forall2 (record_at σ) ls rs -> Forall2 (record_at (σ ++ κ)) ls rs.
Proof.
  intros Hall. eapply Forall2_impl; [exact Hall|]. intros l r Hl.
  unfold record_at. by apply lookup_app_l_Some.
Qed.

(** C9: run on a store in which the record reads as [sql], the derivation
    returns, and every cell that existed before the call holds what it held
    before: the plans array keeps its elements in their order and the plan
    objects keep their properties, so the record still reads as [sql].  The
    array that is returned holds the records of the functional
    derivation. *)
Theorem usePlanRecord_st_preserves_input (σ : Store) (record : SQLRecordRef)
    (sql : SQLRecord) :
  load_sql record σ = Some (sql, σ) ->
  exists (out : loc) (σ' : Store),
    usePlanRecord_st record σ
    = Some ((isMultiPlans (usePlanRecord sql), out), σ') /\
    (forall l c, σ !! l = Some c -> σ' !! l = Some c) /\
    load_sql record σ' = Some (sql, σ') /\
    load_records out σ' = Some (records (usePlanRecord sql), σ').
Proof.
  intros Hsql. apply load_sql_inv in Hsql as [_ Hsql].
  unfold usePlanRecord_st.
  assert (exists (out : loc) (σ' : Store),
      (out ← alloc (CArray []); mret (false, out)) σ = Some ((false, out), σ') /\
      agree_below (length σ) σ σ' /\
      load_records out σ' = Some ([], σ')) as Hempty.
  { exists (length σ), (σ ++ [CArray []]).
    split; [done|]. split; [by apply agree_below_app|].
    eapply load_records_some; [|constructor].
    by rewrite lookup_app_r, Nat.sub_diag by lia. }
  destruct (ref_plans record) as [arr|] eqn:Hplans.
  - destruct Hsql as (elems & ps & Harr & Hall & ->).
    rewrite (bind_some _ _ _ _ _ (load_array_some _ _ _ Harr)).
    rewrite (usePlanRecord_some
               {| is_other := ref_is_other record; plans := Some ps |}
               ps eq_refl).
    cbn [isMultiPlans records].
    rewrite <- (Forall2_length _ _ _ Hall).
    destruct (Nat.eqb_spec (length elems) 0) as [Hz|Hnz].
    + apply length_zero_iff_nil in Hz as ->.
      apply Forall2_nil_inv_l in Hall as ->.
      destruct Hempty as (out & σ' & Hrun & Hag & Hout).
      exists out, σ'. split; [done|].
      split; [intros l c; by apply agree_below_lookup|].
      split; [|done].
      eapply load_sql_ok; [done| |constructor].
      by eapply agree_below_lookup.
    + destruct (derive_rows_st σ arr elems ps Harr Hall)
        as (refs & σ4 & Hag4 & Hlt4 & Hfresh & HR4 & Hrun).
      rewrite Hrun. clear Hrun.
      set (σ5 := σ4 ++ [CArray refs]).
      assert (agree_below (length σ) σ σ5) as Hag5.
      { eapply agree_below_trans; [exact Hag4|].
        apply agree_below_app. lia. }
      assert (Forall (fun l => (l < length σ4)%nat) refs) as Hrefs.
      { apply Forall_forall. intros l Hl.
        apply list_elem_of_lookup in Hl as [i Hi].
        destruct (Forall2_lookup_l _ _ _ _ _ HR4 Hi) as (r & _ & Hr).
        by eapply lookup_lt_Some. }
      destruct (1 <? length elems)%nat.
      * (* records.unshift(createOverallRecord(record)) *)
        set (sql := {| is_other := ref_is_other record; plans := Some ps |}).
        set (σ6 := σ5 ++ [CRecord (createOverallRecord sql)]).
        set (σ7 := <[length σ4 := CArray (length σ5 :: refs)]> σ6).
        assert (length σ5 = S (length σ4)) as Hlen5
          by (subst σ5; rewrite length_app; simpl; lia).
        assert (σ6 !! length σ4 = Some (CArray refs)) as Harr6.
        { subst σ6 σ5. apply lookup_app_l_Some.
          by rewrite lookup_app_r, Nat.sub_diag by lia. }
        assert (createOverallRecord_st record σ5 = Some (length σ5, σ6)) as Hov.
        { unfold createOverallRecord_st. erewrite bind_some; [reflexivity|].
          eapply load_sql_ok; [done| |by eapply agree_below_items].
          by eapply agree_below_lookup. }
        assert (unshift_st (length σ4) (length σ5) σ6
                = Some (length (length σ5 :: refs), σ7)) as Hun.
        { unfold unshift_st.
          erewrite bind_some by (by apply load_array_some).
          by erewrite bind_some by (eapply write_some; exact Harr6). }
        assert (agree_below (length σ) σ σ7) as Hag7.
        { eapply agree_below_trans; [exact Hag5|].
          eapply agree_below_trans; [apply agree_below_app; lia|].
          apply agree_below_insert. lia. }
        exists (length σ4), σ7. split; [|split; [|split]].
        -- erewrite bind_some; [reflexivity|].
           erewrite bind_some by exact Hov. exact Hun.
        -- intros l c. by apply agree_below_lookup.
        -- eapply load_sql_ok; [done| |by eapply agree_below_items].
           by eapply agree_below_lookup.
        -- eapply load_records_some.
           ++ subst σ7. apply list_lookup_insert_eq.
              by eapply lookup_lt_Some.
           ++ simpl. constructor.
              ** unfold record_at. subst σ7.
                 rewrite list_lookup_insert_ne by lia. subst σ6.
                 by rewrite lookup_app_r, Nat.sub_diag by lia.
              ** apply Forall2_same_length_lookup.
                 split; [by eapply Forall2_length|].
                 intros i l r Hl Hr. unfold record_at. subst σ7.
                 pose proof (proj1 (Forall_lookup _ _) Hrefs i l Hl) as Hx.
                 simpl in Hx. rewrite list_lookup_insert_ne by lia.
                 subst σ6 σ5. do 2 apply lookup_app_l_Some.
                 exact (Forall2_lookup_lr _ _ _ _ _ _ HR4 Hl Hr).
      * exists (length σ4), σ5. split; [done|]. split; [|split].
        -- intros l c. by apply agree_below_lookup.
        -- eapply load_sql_ok; [done| |by eapply agree_below_items].
           by eapply agree_below_lookup.
        -- eapply load_records_some.
           ++ subst σ5. by rewrite lookup_app_r, Nat.sub_diag by lia.
           ++ simpl. by apply record_at_app.
  - subst sql. unfold usePlanRecord. cbn [plans isMultiPlans records].
    destruct Hempty as (out & σ' & Hrun & Hag & Hout).
    exists out, σ'. split; [done|].
    split; [intros l c; by apply agree_below_lookup|].
    split; [|done]. unfold load_sql. by rewrite Hplans.
Qed.

(** ** Further properties of the derivation *)

Lemma sort_sorted_id {A} (cmp : A -> A -> Z) (l : list A) :
  StronglySorted (fun a b => cmp a b <= 0) l -> JS.sort cmp l = l.
Proof.
  induction 1 as [|x l Hl IH Hx]; [done|].
  rewrite sort_cons, IH. destruct Hx as [|y l Hxy _]; [done|].
  simpl. by destruct (Z.leb_spec (cmp x y) 0); [|lia].
Qed.

Lemma StronglySorted_cpuTime (rows : list PlanRecord) :
  StronglySorted (fun a b => cpuTime a >= cpuTime b) rows ->
  StronglySorted Z.ge (cpuTime <$> rows).
Proof.
  induction 1 as [|r rows Hrows IH Hr]; simpl; constructor; [done|].
  by rewrite Forall_fmap.
Qed.

Lemma elem_of_derivedRows (ps : list TopsqlSummaryPlanItem) (r : PlanRecord) :
  r ∈ derivedRows ps <->
  exists p, p ∈ ps /\ r = convertNoPlanRecord (toPlanRecord p).
Proof.
  rewrite derivedRows_perm, list_elem_of_fmap. split.
  - intros (p & -> & Hp). by exists p.
  - intros (p & Hp & ->). by exists p.
Qed.

Lemma elem_of_records (record : SQLRecord) (r : PlanRecord) :
  r ∈ records (usePlanRecord record) ->
  r = createOverallRecord record \/
  exists p, p ∈ default [] (plans record) /\
            r = convertNoPlanRecord (toPlanRecord p).
Proof.
  destruct (plans record) as [ps|] eqn:Hps.
  - rewrite (usePlanRecord_some _ _ Hps). simpl. rewrite elem_of_app.
    intros [Hov|Hrow].
    + left. destruct (1 <? length ps)%nat; [|by apply elem_of_nil in Hov].
      by apply list_elem_of_singleton in Hov.
    + right. by apply elem_of_derivedRows.
  - rewrite (usePlanRecord_absent _ Hps). simpl. by intros ?%elem_of_nil.
Qed.

(** X1: the derivation returns no record at all exactly when the plans
    are absent or empty; with the plans absent the result is the empty
    one, [isMultiPlans = false] included. *)
Theorem usePlanRecord_no_records_iff (record : SQLRecord) :
  (records (usePlanRecord record) = [] <-> default [] (plans record) = []) /\
  (plans record = None ->
   usePlanRecord record = {| isMultiPlans := false; records := [] |}).
Proof.
  split; [|apply usePlanRecord_absent].
  destruct (plans record) as [ps|] eqn:Hps; simpl.
  - rewrite (usePlanRecord_some _ _ Hps). simpl. split.
    + intros Hnil. apply app_eq_nil in Hnil as [_ Hnil].
      apply (f_equal length) in Hnil.
      unfold derivedRows in Hnil.
      rewrite length_fmap, sort_length, length_fmap in Hnil.
      by apply length_zero_iff_nil.
    + by intros ->.
  - by rewrite (usePlanRecord_absent _ Hps).
Qed.

(** X2: the first plan row carries the largest [cpuTime]: no plan of the
    input has a larger sum than the row at the head of the plan rows. *)
Theorem planRows_head_is_max (record : SQLRecord)
    (ps : list TopsqlSummaryPlanItem) (p : TopsqlSummaryPlanItem) :
  plans record = Some ps ->
  p ∈ ps ->
  exists r0,
    planRows (usePlanRecord record) !! 0%nat = Some r0 /\
    computeCpuTime p <= cpuTime r0.
Proof.
  intros Hps Hp. rewrite (planRows_some _ _ Hps).
  assert (convertNoPlanRecord (toPlanRecord p) ∈ derivedRows ps) as Hin
    by (apply elem_of_derivedRows; eauto).
  pose proof (derivedRows_sorted ps) as Hs.
  destruct (derivedRows ps) as [|r0 rows]; [by apply elem_of_nil in Hin|].
  exists r0. split; [done|].
  apply StronglySorted_inv in Hs as [_ Hall].
  apply elem_of_cons in Hin as [<-|Hin].
  - rewrite convertNoPlanRecord_cpuTime. simpl. lia.
  - pose proof (proj1 (Forall_forall _ _) Hall _ Hin) as Hle. simpl in Hle.
    rewrite convertNoPlanRecord_cpuTime in Hle. simpl in Hle. lia.
Qed.

(** X3: plans that already stand in descending order of their sums are
    left in that order: the plan rows are the rows of the plans, one by
    one. *)
Theorem planRows_of_sorted_plans (record : SQLRecord)
    (ps : list TopsqlSummaryPlanItem) :
  plans record = Some ps ->
  StronglySorted (fun p q => computeCpuTime p >= computeCpuTime q) ps ->
  planRows (usePlanRecord record)
  = (fun p => convertNoPlanRecord (toPlanRecord p)) <$> ps.
Proof.
  intros Hps Hs. rewrite (planRows_some _ _ Hps). unfold derivedRows.
  rewrite sort_sorted_id; [by rewrite <- list_fmap_compose|].
  clear Hps. induction Hs as [|p ps' Hs IH Hp]; simpl; [constructor|].
  constructor; [done|].
  rewrite Forall_fmap. eapply Forall_impl; [exact Hp|].
  intros q Hq. unfold byCpuTimeDesc, toPlanRecord, compose.
  cbn [cpuTime]. cbv beta in Hq. lia.
Qed.

#[local] Instance Zge_antisymm : AntiSymm (=) Z.ge.
Proof. intros x y Hxy Hyx. lia. Qed.

(** X4: the column of [cpuTime] values depends on the plans only, not on
    the order in which the response lists them: two records whose plans are
    permutations of each other show the same sequence of sums. *)
Theorem planRows_cpuTime_perm (record1 record2 : SQLRecord)
    (ps1 ps2 : list TopsqlSummaryPlanItem) :
  plans record1 = Some ps1 ->
  plans record2 = Some ps2 ->
  ps1 ≡ₚ ps2 ->
  cpuTime <$> planRows (usePlanRecord record1)
  = cpuTime <$> planRows (usePlanRecord record2).
Proof.
  intros H1 H2 Hperm.
  rewrite (planRows_some _ _ H1), (planRows_some _ _ H2).
  apply (StronglySorted_unique Z.ge).
  - apply StronglySorted_cpuTime, derivedRows_sorted.
  - apply StronglySorted_cpuTime, derivedRows_sorted.
  - by rewrite !derivedRows_perm, Hperm.
Qed.

Lemma sum_of_nonneg (arr : list Z) : Forall (Z.le 0) arr -> 0 <= sum_of arr.
Proof.
  unfold sum_of. induction 1 as [|x arr Hx _ IH]; simpl; lia.
Qed.

Lemma computeCpuTime_sum (p : TopsqlSummaryPlanItem) :
  computeCpuTime p = sum_of (default [] (cpu_time_ms p)).
Proof.
  unfold computeCpuTime.
  destruct (cpu_time_ms p) as [arr|]; cbn [fmap option_fmap option_map default].
  - by rewrite or_zero_id, reduce_add_sum.
  - done.
Qed.

(** X5: when no sample of any plan is negative, no plan row has a
    negative [cpuTime]. *)
Theorem planRows_cpuTime_nonneg (record : SQLRecord)
    (ps : list TopsqlSummaryPlanItem) (r : PlanRecord) :
  plans record = Some ps ->
  Forall (fun p => Forall (Z.le 0) (default [] (cpu_time_ms p))) ps ->
  r ∈ planRows (usePlanRecord record) ->
  0 <= cpuTime r.
Proof.
  intros Hps Hall Hr. rewrite (planRows_some _ _ Hps) in Hr.
  apply elem_of_derivedRows in Hr as (p & Hp & ->).
  rewrite convertNoPlanRecord_cpuTime. simpl. rewrite computeCpuTime_sum.
  apply sum_of_nonneg. exact (proj1 (Forall_forall _ _) Hall _ Hp).
Qed.

(** ** Further properties of the component *)

Lemma has_digest_true (p : TopsqlSummaryPlanItem) :
  has_digest p = true ->
  exists d, plan_digest p = Some d /\ d <> EmptyString.
Proof.
  unfold has_digest. destruct (plan_digest p) as [d|]; [|done].
  destruct (String.eqb_spec d EmptyString); [done|]. by exists d.
Qed.

Lemma convertNoPlanRecord_digest (r : PlanRecord) :
  (has_digest (planItem r) = true /\ convertNoPlanRecord r = r) \/
  (has_digest (planItem r) = false /\
   plan_digest (planItem (convertNoPlanRecord r)) = Some NO_PLAN_LABEL).
Proof.
  unfold convertNoPlanRecord. destruct (has_digest (planItem r)); auto.
Qed.

(** X6: every record of the derivation has a digest, so the key that the
    table and the selection read with [r.plan_digest!] is never
    [undefined]. *)
Theorem getKey_defined (record : SQLRecord) (r : PlanRecord) :
  r ∈ records (usePlanRecord record) ->
  exists d, getKey r = Some d.
Proof.
  intros [->|(p & _ & ->)]%elem_of_records; unfold getKey.
  - by exists OVERALL_LABEL.
  - destruct (convertNoPlanRecord_digest (toPlanRecord p))
      as [[Hd ->]|[_ Hd]].
    + apply has_digest_true in Hd as (d & Hd & _). by exists d.
    + by exists NO_PLAN_LABEL.
Qed.

(** X7: the plan column on the records of the derivation.  Whenever the
    cell is the one of a real plan, its tooltip and its text are the digest
    of one of the input plans, which is not empty, and the record carries
    that plan unchanged: the fallbacks to [undefined] and to the "Unknown"
    label are not taken for an absent or an empty digest.  The overall
    record renders as the overall cell.  Provided the two placeholders are
    different strings, the row of a plan whose digest is absent or empty is
    a record of the derivation that renders as the no-plan cell. *)
Theorem renderPlan_shows_digest (record : SQLRecord) :
  (forall r title label,
     r ∈ records (usePlanRecord record) ->
     renderPlan r = DigestView title label ->
     exists p d,
       p ∈ default [] (plans record) /\
       plan_digest p = Some d /\ d <> EmptyString /\
       planItem r = p /\ title = Some d /\ label = d) /\
  renderPlan (createOverallRecord record)
  = SpecialView (translate "topsql.detail.overall_tooltip")
      (translate "topsql.detail.overall") /\
  (NO_PLAN_LABEL <> OVERALL_LABEL ->
   forall p,
     p ∈ default [] (plans record) ->
     plan_digest p = None \/ plan_digest p = Some EmptyString ->
     convertNoPlanRecord (toPlanRecord p) ∈ records (usePlanRecord record) /\
     renderPlan (convertNoPlanRecord (toPlanRecord p))
     = SpecialView (translate "topsql.detail.no_plan_tooltip")
         (translate "topsql.detail.no_plan")).
Proof.
  split; [|split].
  - intros r title label Hr. unfold renderPlan.
    destruct (isOverallRecord r) eqn:Hov; [done|].
    destruct (isNoPlanRecord r) eqn:Hno; [done|].
    intros [= <- <-].
    apply elem_of_records in Hr as [->|(p & Hp & ->)].
    + by rewrite isOverallRecord_create in Hov.
    + destruct (has_digest p) eqn:Hd.
      * unfold convertNoPlanRecord. simpl. rewrite Hd. simpl.
        apply has_digest_true in Hd as (d & Hd & Hne).
        exists p, d. rewrite Hd. unfold digest_or.
        by destruct (String.eqb_spec d EmptyString).
      * by rewrite isNoPlanRecord_convert in Hno.
  - unfold renderPlan. by rewrite isOverallRecord_create.
  - intros Hlabels p Hp Hd. apply has_digest_false in Hd. split.
    + destruct (plans record) as [ps|] eqn:Hps;
        [|by apply elem_of_nil in Hp].
      rewrite (usePlanRecord_some _ _ Hps). simpl.
      apply elem_of_app. right. apply elem_of_derivedRows. by exists p.
    + unfold renderPlan.
      rewrite (isNoPlanRecord_convert (toPlanRecord p)) by done.
      destruct (convertNoPlanRecord_digest (toPlanRecord p))
        as [[Hd' _]|[_ Hlabel]]; [simpl in Hd'; congruence|].
      unfold isOverallRecord. rewrite Hlabel.
      by destruct (String.eqb_spec NO_PLAN_LABEL OVERALL_LABEL).
Qed.

(** X8: the columns of the table.  For either instance type the keys are
    the three common ones followed by the two scan columns for [tikv] or by
    the latency column for [tidb]; they are pairwise distinct, and no
    column has a minimal width above its maximal one. *)
Theorem tableColumnDefs_keys (capacity : QArith_base.Q)
    (instanceType : InstanceType) :
  key <$> tableColumnDefs capacity instanceType = tableColumns instanceType /\
  NoDup (key <$> tableColumnDefs capacity instanceType) /\
  Forall (fun c => (minWidth c <= maxWidth c)%nat)
    (tableColumnDefs capacity instanceType) /\
  ("scan_records_per_sec"%string
     ∈ key <$> tableColumnDefs capacity instanceType
   <-> instanceType = tikv) /\
  ("scan_indexes_per_sec"%string
     ∈ key <$> tableColumnDefs capacity instanceType
   <-> instanceType = tikv) /\
  ("latency"%string ∈ key <$> tableColumnDefs capacity instanceType
   <-> instanceType = tidb).
Proof.
  assert (forall (x : string) (l : list string),
            Forall (fun y => x <> y) l -> x ∉ l) as Hnotin.
  { intros x l Hall Hin. by apply (proj1 (Forall_forall _ _) Hall x Hin). }
  destruct instanceType; cbn.
  all: split; [done|].
  all: split;
         [repeat (constructor;
                  [apply Hnotin; repeat (constructor; [discriminate|]);
                   constructor|]);
          constructor|].
  all: split; [repeat (constructor; [simpl; lia|]); constructor|].
  all: repeat split; try done; try (intros _; by repeat constructor).
  all: intros Hin; exfalso; revert Hin; apply Hnotin;
         repeat (constructor; [discriminate|]); constructor.
Qed.

(** X9: no column tells an absent rate from a rate of 0: with 0 put in
    the place of every absent rate, each column of either instance type
    renders the record as before. *)
Theorem onRender_absent_rate_is_zero (capacity : QArith_base.Q)
    (instanceType : InstanceType) (c : IColumn) (rec : PlanRecord) :
  c ∈ tableColumnDefs capacity instanceType ->
  onRender c (withZeroRates rec) = onRender c rec.
Proof.
  intros Hc.
  assert (forall v, renderRate (Some (default (QArith_base.inject_Z 0) v))
                    = renderRate v) as Hrate by (by intros [v|]).
  destruct instanceType; cbn in Hc.
  all: repeat (apply elem_of_cons in Hc as [->|Hc]);
         [..|by apply elem_of_nil in Hc]; cbn [onRender]; try done.
  all: try apply Hrate.
  all: unfold renderLatency, withZeroRates; cbn [planItem duration_per_exec_ms];
         by destruct (duration_per_exec_ms (planItem rec)).
Qed.

(** X10: with exactly one plan the record handed to the detail panel is
    the row of that plan whatever the selection is, also when the selection
    predicate rejects it: a plan without digest is forwarded as the no-plan
    record. *)
Theorem single_noPlan_forwarded (record : SQLRecord)
    (p : TopsqlSummaryPlanItem) (selectedRecord : option PlanRecord) :
  plans record = Some [p] ->
  plan_digest p = None \/ plan_digest p = Some EmptyString ->
  exists r,
    planRecordOf (isMultiPlans (usePlanRecord record))
      (records (usePlanRecord record)) selectedRecord = Some r /\
    r = convertNoPlanRecord (toPlanRecord p) /\
    isNoPlanRecord r = true /\
    canSelectItem r = false.
Proof.
  intros Hps Hd. apply has_digest_false in Hd.
  exists (convertNoPlanRecord (toPlanRecord p)).
  rewrite (usePlanRecord_some _ _ Hps).
  assert (isNoPlanRecord (convertNoPlanRecord (toPlanRecord p)) = true)
    as Hno by by apply isNoPlanRecord_convert.
  split; [done|]. split; [done|]. split; [done|].
  apply canSelectItem_false. by left.
Qed.

(** X11: which plan rows can be selected.  The row of a plan passes the
    selection predicate exactly when the plan has a digest that is not
    empty and is neither of the two placeholders; such a row is the plan
    with its sum, unchanged by the conversion. *)
Theorem canSelectItem_plan_row (p : TopsqlSummaryPlanItem) :
  canSelectItem (convertNoPlanRecord (toPlanRecord p)) = true <->
  exists d,
    plan_digest p = Some d /\ d <> EmptyString /\
    d <> NO_PLAN_LABEL /\ d <> OVERALL_LABEL /\
    convertNoPlanRecord (toPlanRecord p) = toPlanRecord p.
Proof.
  unfold canSelectItem. split.
  - intros Hsel. apply andb_prop in Hsel as [Hno Hov].
    apply negb_true_iff in Hno, Hov.
    destruct (convertNoPlanRecord_digest (toPlanRecord p))
      as [[Hd Heq]|[Hd Hlabel]].
    + rewrite Heq in Hno, Hov. simpl in Hd.
      apply has_digest_true in Hd as (d & Hd & Hne).
      unfold isNoPlanRecord, isOverallRecord in Hno, Hov. simpl in Hno, Hov.
      rewrite Hd in Hno, Hov.
      apply String.eqb_neq in Hno, Hov. by exists d.
    + unfold isNoPlanRecord in Hno. rewrite Hlabel in Hno.
      by rewrite String.eqb_refl in Hno.
  - intros (d & Hd & Hne & Hno & Hov & ->).
    unfold isNoPlanRecord, isOverallRecord. simpl. rewrite Hd.
    apply String.eqb_neq in Hno, Hov. by rewrite Hno, Hov.
Qed.

(** ** Further properties of the derivation over the store *)

Lemma load_sql_agree (σ σ' : Store) (record : SQLRecordRef) (sql : SQLRecord) :
  agree_below (length σ) σ σ' ->
  load_sql record σ = Some (sql, σ) ->
  load_sql record σ' = Some (sql, σ').
Proof.
  intros Hag Hsql. apply load_sql_inv in Hsql as [_ Hsql].
  destruct (ref_plans record) as [arr|] eqn:Hplans.
  - destruct Hsql as (elems & ps & Harr & Hall & ->).
    eapply load_sql_ok; [done| |by eapply agree_below_items].
    by eapply agree_below_lookup.
  - subst sql. unfold load_sql. by rewrite Hplans.
Qed.

(** A run of the derivation, with what it allocates: the array that is
    returned and the objects it refers to lie beyond the old end of the
    store, and nothing below the old end has changed. *)
Lemma usePlanRecord_st_run (σ : Store) (record : SQLRecordRef)
    (sql : SQLRecord) :
  load_sql record σ = Some (sql, σ) ->
  exists (out : loc) (refs : list loc) (σ' : Store),
    usePlanRecord_st record σ
    = Some ((isMultiPlans (usePlanRecord sql), out), σ') /\
    agree_below (length σ) σ σ' /\
    (length σ <= out)%nat /\
    Forall (fun l => (length σ <= l)%nat) refs /\
    σ' !! out = Some (CArray refs) /\
    Forall2 (record_at σ') refs (records (usePlanRecord sql)).
Proof.
  intros Hsql. apply load_sql_inv in Hsql as [_ Hsql].
  unfold usePlanRecord_st.
  assert (exists (out : loc) (σ' : Store),
      (out ← alloc (CArray []); mret (false, out)) σ = Some ((false, out), σ') /\
      agree_below (length σ) σ σ' /\
      (length σ <= out)%nat /\
      σ' !! out = Some (CArray [])) as Hempty.
  { exists (length σ), (σ ++ [CArray []]).
    split; [done|]. split; [by apply agree_below_app|]. split; [done|].
    by rewrite lookup_app_r, Nat.sub_diag by lia. }
  destruct (ref_plans record) as [arr|] eqn:Hplans.
  - destruct Hsql as (elems & ps & Harr & Hall & ->).
    rewrite (bind_some _ _ _ _ _ (load_array_some _ _ _ Harr)).
    rewrite (usePlanRecord_some
               {| is_other := ref_is_other record; plans := Some ps |}
               ps eq_refl).
    cbn [isMultiPlans records].
    rewrite <- (Forall2_length _ _ _ Hall).
    destruct (Nat.eqb_spec (length elems) 0) as [Hz|Hnz].
    + apply length_zero_iff_nil in Hz as ->.
      apply Forall2_nil_inv_l in Hall as ->.
      destruct Hempty as (out & σ' & Hrun & Hag & Hout & Harr').
      exists out, [], σ'. repeat (split; [done|]). constructor.
    + destruct (derive_rows_st σ arr elems ps Harr Hall)
        as (refs & σ4 & Hag4 & Hlt4 & Hfresh & HR4 & Hrun).
      rewrite Hrun. clear Hrun.
      set (σ5 := σ4 ++ [CArray refs]).
      assert (agree_below (length σ) σ σ5) as Hag5.
      { eapply agree_below_trans; [exact Hag4|].
        apply agree_below_app. lia. }
      assert (Forall (fun l => (l < length σ4)%nat) refs) as Hrefs.
      { apply Forall_forall. intros l Hl.
        apply list_elem_of_lookup in Hl as [i Hi].
        destruct (Forall2_lookup_l _ _ _ _ _ HR4 Hi) as (r & _ & Hr).
        by eapply lookup_lt_Some. }
      destruct (1 <? length elems)%nat.
      * set (sql := {| is_other := ref_is_other record; plans := Some ps |}).
        set (σ6 := σ5 ++ [CRecord (createOverallRecord sql)]).
        set (σ7 := <[length σ4 := CArray (length σ5 :: refs)]> σ6).
        assert (length σ5 = S (length σ4)) as Hlen5
          by (subst σ5; rewrite length_app; simpl; lia).
        assert (σ6 !! length σ4 = Some (CArray refs)) as Harr6.
        { subst σ6 σ5. apply lookup_app_l_Some.
          by rewrite lookup_app_r, Nat.sub_diag by lia. }
        assert (createOverallRecord_st record σ5 = Some (length σ5, σ6)) as Hov.
        { unfold createOverallRecord_st. erewrite bind_some; [reflexivity|].
          eapply load_sql_ok; [done| |by eapply agree_below_items].
          by eapply agree_below_lookup. }
        assert (unshift_st (length σ4) (length σ5) σ6
                = Some (length (length σ5 :: refs), σ7)) as Hun.
        { unfold unshift_st.
          erewrite bind_some by (by apply load_array_some).
          by erewrite bind_some by (eapply write_some; exact Harr6). }
        exists (length σ4), (length σ5 :: refs), σ7.
        split; [|split; [|split; [|split; [|split]]]].
        -- erewrite bind_some; [reflexivity|].
           erewrite bind_some by exact Hov. exact Hun.
        -- eapply agree_below_trans; [exact Hag5|].
           eapply agree_below_trans; [apply agree_below_app; lia|].
           apply agree_below_insert. lia.
        -- lia.
        -- constructor; [lia|done].
        -- subst σ7. apply list_lookup_insert_eq. by eapply lookup_lt_Some.
        -- simpl. constructor.
           ++ unfold record_at. subst σ7.
              rewrite list_lookup_insert_ne by lia. subst σ6.
              by rewrite lookup_app_r, Nat.sub_diag by lia.
           ++ apply Forall2_same_length_lookup.
              split; [by eapply Forall2_length|].
              intros i l r Hl Hr. unfold record_at. subst σ7.
              pose proof (proj1 (Forall_lookup _ _) Hrefs i l Hl) as Hx.
              simpl in Hx. rewrite list_lookup_insert_ne by lia.
              subst σ6 σ5. do 2 apply lookup_app_l_Some.
              exact (Forall2_lookup_lr _ _ _ _ _ _ HR4 Hl Hr).
      * exists (length σ4), refs, σ5.
        split; [done|]. split; [done|]. split; [lia|]. split; [done|]. split.
        -- subst σ5. by rewrite lookup_app_r, Nat.sub_diag by lia.
        -- simpl. by apply record_at_app.
  - subst sql. unfold usePlanRecord. cbn [plans isMultiPlans records].
    destruct Hempty as (out & σ' & Hrun & Hag & Hout & Harr').
    exists out, [], σ'. repeat (split; [done|]). constructor.
Qed.

(** X12: what the derivation returns is new at the top level.  The
    [records] array is not a cell of the store before the call, so it is
    not the plans array of the record, and no object it refers to is a cell
    of the store before the call, so no row is one of the plan objects of
    the input.  Nothing is said about the sample arrays inside the
    objects. *)
Theorem usePlanRecord_st_result_fresh (σ : Store) (record : SQLRecordRef)
    (sql : SQLRecord) :
  load_sql record σ = Some (sql, σ) ->
  exists (out : loc) (refs : list loc) (σ' : Store),
    usePlanRecord_st record σ
    = Some ((isMultiPlans (usePlanRecord sql), out), σ') /\
    σ' !! out = Some (CArray refs) /\
    length refs = length (records (usePlanRecord sql)) /\
    σ !! out = None /\
    ref_plans record <> Some out /\
    Forall (fun l => σ !! l = None) refs.
Proof.
  intros Hsql.
  destruct (usePlanRecord_st_run σ record sql Hsql)
    as (out & refs & σ' & Hrun & Hag & Hout & Hfresh & Harr & Hrecs).
  exists out, refs, σ'. split; [done|]. split; [done|].
  split; [by eapply Forall2_length|].
  split; [by apply lookup_ge_None|]. split.
  - intros Hplans. apply load_sql_inv in Hsql as [_ Hsql].
    rewrite Hplans in Hsql. destruct Hsql as (elems & ps & Hlook & _).
    apply lookup_lt_Some in Hlook. lia.
  - eapply Forall_impl; [exact Hfresh|]. intros l Hl.
    by apply lookup_ge_None.
Qed.

(** X13: deriving again.  A second run on the store that the first run
    left returns the same [isMultiPlans] and a different array holding
    equal records; the array of the first run still holds its records
    afterwards, and the record still reads as before. *)
Theorem usePlanRecord_st_rerun (σ : Store) (record : SQLRecordRef)
    (sql : SQLRecord) :
  load_sql record σ = Some (sql, σ) ->
  exists (out1 out2 : loc) (σ1 σ2 : Store),
    usePlanRecord_st record σ
    = Some ((isMultiPlans (usePlanRecord sql), out1), σ1) /\
    usePlanRecord_st record σ1
    = Some ((isMultiPlans (usePlanRecord sql), out2), σ2) /\
    out1 <> out2 /\
    load_records out1 σ2 = Some (records (usePlanRecord sql), σ2) /\
    load_records out2 σ2 = Some (records (usePlanRecord sql), σ2) /\
    load_sql record σ2 = Some (sql, σ2).
Proof.
  intros Hsql.
  destruct (usePlanRecord_st_run σ record sql Hsql)
    as (out1 & refs1 & σ1 & Hrun1 & Hag1 & Hout1 & _ & Harr1 & Hrecs1).
  pose proof (load_sql_agree _ _ _ _ Hag1 Hsql) as Hsql1.
  destruct (usePlanRecord_st_run σ1 record sql Hsql1)
    as (out2 & refs2 & σ2 & Hrun2 & Hag2 & Hout2 & _ & Harr2 & Hrecs2).
  exists out1, out2, σ1, σ2. split; [done|]. split; [done|].
  split; [apply lookup_lt_Some in Harr1; lia|].
  split; [|split].
  - eapply load_records_some; [by eapply agree_below_lookup|].
    eapply Forall2_impl; [exact Hrecs1|]. intros l r Hl.
    by eapply agree_below_lookup.
  - by eapply load_records_some.
  - by eapply load_sql_agree.
Qed.

End ListDetailTable.

(** ** The definitions at work *)

Import Sample.

#[local] Abbreviation derive :=
  (usePlanRecord no_plan_label overall_label summary).
#[local] Abbreviation convert := (convertNoPlanRecord no_plan_label).
#[local] Abbreviation overall :=
  (createOverallRecord overall_label summary).

(** The first example of the specification: [[overall, b(5), a(3)]]. *)
Example run_two_plans :
  derive two_plans
  = {| isMultiPlans := true;
       records :=
         [ {| cpuTime := 8; planItem := plan (Some overall_label) None |};
           {| cpuTime := 5; planItem := plan_b |};
           {| cpuTime := 3; planItem := plan_a |} ] |}.
Proof. reflexivity. Qed.

(** The second example: a single record of the no-plan variant. *)
Example run_one_plan :
  derive one_plan
  = {| isMultiPlans := false;
       records :=
         [ {| cpuTime := 1;
              planItem := plan (Some no_plan_label) (Some [1]) |} ] |}.
Proof. reflexivity. Qed.

(** A tie: [a] and [c] both sum to 3 and stay in this order; the plan
    without samples sinks to the end. *)
Example run_tied_plans :
  planItem <$> planRows (derive tied_plans)
  = [plan_b; plan_a; plan_c; plan (Some no_plan_label) None].
Proof. reflexivity. Qed.

(** The store after the derivation of [two_plans]: cells 0 to 2 are the
    input; 3 is the copy of the plans array, 4 and 5 the new objects, 6 the
    mapped array that [sort] reordered, 7 the array that is returned and 8
    the overall record that [unshift] put in front. *)
Example run_store :
  usePlanRecord_st no_plan_label overall_label summary two_plans_ref store
  = Some ((true, 7%nat),
          store ++
          [ CArray [0; 1]%nat;
            CRecord {| cpuTime := 3; planItem := plan_a |};
            CRecord {| cpuTime := 5; planItem := plan_b |};
            CArray [5; 4]%nat;
            CArray [8; 5; 4]%nat;
            CRecord {| cpuTime := 8;
                       planItem := plan (Some overall_label) None |} ]).
Proof. reflexivity. Qed.

Lemma usePlanRecord_empty_witness :
  plans no_plans = Some [] /\
  derive no_plans = {| isMultiPlans := false; records := [] |}.
Proof.
  split; [reflexivity|].
  apply (usePlanRecord_empty no_plan_label overall_label summary no_plans).
  reflexivity.
Defined.

Lemma usePlanRecord_single_witness :
  plans one_plan = Some [plan_empty_digest] /\
  isMultiPlans (derive one_plan) = false /\
  length (records (derive one_plan)) = 1%nat /\
  records (derive one_plan) = [convert (toPlanRecord plan_empty_digest)].
Proof.
  split; [reflexivity|].
  apply (usePlanRecord_single no_plan_label overall_label summary one_plan).
  reflexivity.
Defined.

Lemma usePlanRecord_multi_witness :
  plans two_plans = Some [plan_a; plan_b] /\
  (1 < length [plan_a; plan_b])%nat /\
  isMultiPlans (derive two_plans) = true /\
  length (records (derive two_plans)) = 3%nat /\
  exists rows,
    records (derive two_plans) = overall two_plans :: rows /\
    isOverallRecord overall_label (overall two_plans) = true /\
    length rows = 2%nat /\
    rows ≡ₚ (fun p => convert (toPlanRecord p)) <$> [plan_a; plan_b] /\
    StronglySorted (fun a b => cpuTime a >= cpuTime b) rows /\
    exists sorted_plans,
      sorted_plans ≡ₚ [plan_a; plan_b] /\
      Forall2 (row_of_plan no_plan_label) rows sorted_plans.
Proof.
  split; [reflexivity|]. split; [simpl; lia|].
  apply (usePlanRecord_multi no_plan_label overall_label summary two_plans
           [plan_a; plan_b]); [reflexivity|simpl; lia].
Defined.

Lemma usePlanRecord_cpuTime_witness :
  plans two_plans = Some [plan_a; plan_b] /\
  plan_a ∈ [plan_a; plan_b] /\
  convert (toPlanRecord plan_a) ∈ records (derive two_plans) /\
  planItem (toPlanRecord plan_a) = plan_a /\
  cpuTime (toPlanRecord plan_a) = sum_of (default [] (cpu_time_ms plan_a)) /\
  cpuTime (convert (toPlanRecord plan_a))
    = sum_of (default [] (cpu_time_ms plan_a)) /\
  (cpu_time_ms plan_a = None -> cpuTime (convert (toPlanRecord plan_a)) = 0).
Proof.
  split; [reflexivity|]. split; [apply list_elem_of_here|].
  apply (usePlanRecord_cpuTime no_plan_label overall_label summary two_plans
           [plan_a; plan_b] plan_a); [reflexivity|apply list_elem_of_here].
Defined.

Lemma usePlanRecord_stable_witness :
  plans tied_plans = Some [plan_absent; plan_a; plan_b; plan_c] /\
  filter (fun r => cpuTime r = 3) (planRows (derive tied_plans))
  = (fun p => convert (toPlanRecord p))
      <$> filter (fun p => computeCpuTime p = 3)
            [plan_absent; plan_a; plan_b; plan_c].
Proof.
  split; [reflexivity|].
  apply (usePlanRecord_stable no_plan_label overall_label summary tied_plans
           [plan_absent; plan_a; plan_b; plan_c] 3).
  reflexivity.
Defined.

Lemma noPlan_and_overall_not_selectable_witness :
  plans tied_plans = Some [plan_absent; plan_a; plan_b; plan_c] /\
  plan_absent ∈ [plan_absent; plan_a; plan_b; plan_c] /\
  (plan_digest plan_absent = None \/
   plan_digest plan_absent = Some EmptyString) /\
  convert (toPlanRecord plan_absent) ∈ records (derive tied_plans) /\
  isNoPlanRecord no_plan_label (convert (toPlanRecord plan_absent)) = true /\
  canSelectItem no_plan_label overall_label
    (convert (toPlanRecord plan_absent)) = false /\
  canSelectItem no_plan_label overall_label (overall tied_plans) = false.
Proof.
  split; [reflexivity|]. split; [apply list_elem_of_here|].
  split; [left; reflexivity|].
  destruct (noPlan_and_overall_not_selectable no_plan_label overall_label
              summary tied_plans [plan_absent; plan_a; plan_b; plan_c]
              plan_absent eq_refl (list_elem_of_here _ _)
              (or_introl eq_refl))
    as ((Hin & Hno & Hsel) & Hov & _).
  exact (conj Hin (conj Hno (conj Hsel Hov))).
Defined.

Lemma planRecord_forwarded_witness :
  (1 < length (default [] (plans two_plans)))%nat /\
  planRecordOf (isMultiPlans (derive two_plans)) (records (derive two_plans))
    (Some (toPlanRecord plan_b))
  = Some (toPlanRecord plan_b) /\
  plans one_plan = Some [plan_empty_digest] /\
  planRecordOf (isMultiPlans (derive one_plan)) (records (derive one_plan))
    None
  = Some (convert (toPlanRecord plan_empty_digest)).
Proof.
  split; [simpl; lia|]. split.
  - apply (proj1 (proj2 (planRecord_forwarded no_plan_label overall_label
                           summary two_plans (Some (toPlanRecord plan_b))))).
    simpl; lia.
  - split; [reflexivity|].
    apply (proj1 (proj2 (proj2 (proj2
             (planRecord_forwarded no_plan_label overall_label summary
                one_plan None))))).
    reflexivity.
Defined.

Lemma detail_panel_iff_not_other_witness :
  is_other others = Some true /\
  ListDetailTable no_plan_label overall_label summary others tikv None
  = [CardTable (records (derive others)) (tableColumns tikv)].
Proof.
  split; [reflexivity|].
  apply (proj1 (detail_panel_iff_not_other no_plan_label overall_label summary
                  others tikv None)).
  reflexivity.
Defined.

Lemma usePlanRecord_st_preserves_input_witness :
  load_sql two_plans_ref store = Some (two_plans, store) /\
  exists (out : nat) (σ' : list Cell),
    usePlanRecord_st no_plan_label overall_label summary two_plans_ref store
    = Some ((isMultiPlans (derive two_plans), out), σ') /\
    (forall l c, store !! l = Some c -> σ' !! l = Some c) /\
    load_sql two_plans_ref σ' = Some (two_plans, σ') /\
    load_records out σ' = Some (records (derive two_plans), σ').
Proof.
  split; [reflexivity|].
  apply (usePlanRecord_st_preserves_input no_plan_label overall_label summary
           store two_plans_ref two_plans).
  reflexivity.
Defined.

(** *** Runs of the further properties *)

Lemma usePlanRecord_no_records_iff_witness :
  plans {| is_other := Some false; plans := None |} = None /\
  derive {| is_other := Some false; plans := None |}
  = {| isMultiPlans := false; records := [] |}.
Proof.
  split; [reflexivity|].
  apply (proj2 (usePlanRecord_no_records_iff no_plan_label overall_label
                  summary {| is_other := Some false; plans := None |})).
  reflexivity.
Defined.

Lemma planRows_head_is_max_witness :
  plans two_plans = Some [plan_a; plan_b] /\
  plan_a ∈ [plan_a; plan_b] /\
  exists r0,
    planRows (derive two_plans) !! 0%nat = Some r0 /\
    computeCpuTime plan_a <= cpuTime r0.
Proof.
  split; [reflexivity|]. split; [apply list_elem_of_here|].
  apply (planRows_head_is_max no_plan_label overall_label summary two_plans
           [plan_a; plan_b] plan_a); [reflexivity|apply list_elem_of_here].
Defined.

Lemma planRows_of_sorted_plans_witness :
  plans two_plans_swapped = Some [plan_b; plan_a] /\
  StronglySorted (fun p q => computeCpuTime p >= computeCpuTime q)
    [plan_b; plan_a] /\
  planRows (derive two_plans_swapped)
  = (fun p => convert (toPlanRecord p)) <$> [plan_b; plan_a].
Proof.
  assert (StronglySorted (fun p q => computeCpuTime p >= computeCpuTime q)
            [plan_b; plan_a]) as Hsorted.
  { repeat constructor. vm_compute. discriminate. }
  split; [reflexivity|]. split; [exact Hsorted|].
  apply (planRows_of_sorted_plans no_plan_label overall_label summary
           two_plans_swapped [plan_b; plan_a]); [reflexivity|exact Hsorted].
Defined.

Lemma planRows_cpuTime_perm_witness :
  plans two_plans = Some [plan_a; plan_b] /\
  plans two_plans_swapped = Some [plan_b; plan_a] /\
  [plan_a; plan_b] ≡ₚ [plan_b; plan_a] /\
  cpuTime <$> planRows (derive two_plans)
  = cpuTime <$> planRows (derive two_plans_swapped).
Proof.
  split; [reflexivity|]. split; [reflexivity|]. split; [apply perm_swap|].
  apply (planRows_cpuTime_perm no_plan_label overall_label summary
           two_plans two_plans_swapped [plan_a; plan_b] [plan_b; plan_a]);
    [reflexivity|reflexivity|apply perm_swap].
Defined.

Lemma planRows_cpuTime_nonneg_witness :
  plans two_plans = Some [plan_a; plan_b] /\
  Forall (fun p => Forall (Z.le 0) (default [] (cpu_time_ms p)))
    [plan_a; plan_b] /\
  toPlanRecord plan_b ∈ planRows (derive two_plans) /\
  0 <= cpuTime (toPlanRecord plan_b).
Proof.
  assert (Forall (fun p => Forall (Z.le 0) (default [] (cpu_time_ms p)))
            [plan_a; plan_b]) as Hall.
  { repeat constructor; simpl; lia. }
  assert (toPlanRecord plan_b ∈ planRows (derive two_plans)) as Hin
    by apply list_elem_of_here.
  split; [reflexivity|]. split; [exact Hall|]. split; [exact Hin|].
  apply (planRows_cpuTime_nonneg no_plan_label overall_label summary
           two_plans [plan_a; plan_b]); [reflexivity|exact Hall|exact Hin].
Defined.

Lemma getKey_defined_witness :
  overall two_plans ∈ records (derive two_plans) /\
  exists d, getKey (overall two_plans) = Some d.
Proof.
  assert (overall two_plans ∈ records (derive two_plans)) as Hin
    by apply list_elem_of_here.
  split; [exact Hin|].
  apply (getKey_defined no_plan_label overall_label summary two_plans).
  exact Hin.
Defined.

Lemma renderPlan_shows_digest_witness :
  (toPlanRecord plan_a ∈ records (derive tied_plans) /\
   renderPlan no_plan_label overall_label label_of (toPlanRecord plan_a)
   = DigestView (Some "a"%string) "a" /\
   exists p d,
     p ∈ default [] (plans tied_plans) /\
     plan_digest p = Some d /\ d <> EmptyString /\
     planItem (toPlanRecord plan_a) = p /\
     Some "a"%string = Some d /\ "a"%string = d) /\
  (no_plan_label <> overall_label /\
   plan_absent ∈ default [] (plans tied_plans) /\
   (plan_digest plan_absent = None \/
    plan_digest plan_absent = Some EmptyString) /\
   convert (toPlanRecord plan_absent) ∈ records (derive tied_plans) /\
   renderPlan no_plan_label overall_label label_of
     (convert (toPlanRecord plan_absent))
   = SpecialView (label_of "topsql.detail.no_plan_tooltip")
       (label_of "topsql.detail.no_plan")).
Proof.
  assert (toPlanRecord plan_a ∈ records (derive tied_plans)) as Hin
    by (do 2 apply list_elem_of_further; apply list_elem_of_here).
  assert (no_plan_label <> overall_label) as Hlabels by discriminate.
  assert (plan_absent ∈ default [] (plans tied_plans)) as Habs
    by apply list_elem_of_here.
  split.
  - split; [exact Hin|]. split; [reflexivity|].
    apply (proj1 (renderPlan_shows_digest no_plan_label overall_label summary
                    label_of tied_plans)
             (toPlanRecord plan_a) (Some "a"%string) "a"%string);
      [exact Hin|reflexivity].
  - split; [exact Hlabels|]. split; [exact Habs|].
    split; [left; reflexivity|].
    apply (proj2 (proj2 (renderPlan_shows_digest no_plan_label overall_label
                           summary label_of tied_plans))
             Hlabels plan_absent Habs (or_introl eq_refl)).
Defined.

Lemma tableColumnDefs_keys_witness :
  "latency"%string
  ∈ key <$> tableColumnDefs no_plan_label overall_label label_of format_as
              (QArith_base.inject_Z 100) tidb.
Proof.
  apply (proj2 (proj2 (proj2 (proj2 (proj2
           (tableColumnDefs_keys no_plan_label overall_label label_of
              format_as (QArith_base.inject_Z 100) tidb)))))).
  reflexivity.
Defined.

Lemma onRender_absent_rate_is_zero_witness :
  {| name := label_of "topsql.detail.fields.duration_per_exec_ms";
     key := "latency";
     minWidth := 50;
     maxWidth := 150;
     onRender := renderLatency format_as |}
  ∈ tableColumnDefs no_plan_label overall_label label_of format_as
      (QArith_base.inject_Z 100) tidb /\
  renderLatency format_as (withZeroRates (toPlanRecord plan_a))
  = renderLatency format_as (toPlanRecord plan_a).
Proof.
  assert ({| name := label_of "topsql.detail.fields.duration_per_exec_ms";
             key := "latency";
             minWidth := 50;
             maxWidth := 150;
             onRender := renderLatency format_as |}
          ∈ tableColumnDefs no_plan_label overall_label label_of format_as
              (QArith_base.inject_Z 100) tidb) as Hin
    by (do 3 apply list_elem_of_further; apply list_elem_of_here).
  split; [exact Hin|].
  apply (onRender_absent_rate_is_zero no_plan_label overall_label label_of
           format_as (QArith_base.inject_Z 100) tidb _
           (toPlanRecord plan_a) Hin).
Defined.

Lemma single_noPlan_forwarded_witness :
  plans one_plan = Some [plan_empty_digest] /\
  (plan_digest plan_empty_digest = None \/
   plan_digest plan_empty_digest = Some EmptyString) /\
  exists r,
    planRecordOf (isMultiPlans (derive one_plan)) (records (derive one_plan))
      None = Some r /\
    r = convert (toPlanRecord plan_empty_digest) /\
    isNoPlanRecord no_plan_label r = true /\
    canSelectItem no_plan_label overall_label r = false.
Proof.
  split; [reflexivity|]. split; [right; reflexivity|].
  apply (single_noPlan_forwarded no_plan_label overall_label summary one_plan
           plan_empty_digest None); [reflexivity|right; reflexivity].
Defined.

Lemma canSelectItem_plan_row_witness :
  canSelectItem no_plan_label overall_label (convert (toPlanRecord plan_a))
  = true /\
  exists d,
    plan_digest plan_a = Some d /\ d <> EmptyString /\
    d <> no_plan_label /\ d <> overall_label /\
    convert (toPlanRecord plan_a) = toPlanRecord plan_a.
Proof.
  split; [reflexivity|].
  apply (proj1 (canSelectItem_plan_row no_plan_label overall_label plan_a)).
  reflexivity.
Defined.

Lemma usePlanRecord_st_result_fresh_witness :
  load_sql two_plans_ref store = Some (two_plans, store) /\
  exists (out : nat) (refs : list nat) (σ' : list Cell),
    usePlanRecord_st no_plan_label overall_label summary two_plans_ref store
    = Some ((isMultiPlans (derive two_plans), out), σ') /\
    σ' !! out = Some (CArray refs) /\
    length refs = length (records (derive two_plans)) /\
    store !! out = None /\
    ref_plans two_plans_ref <> Some out /\
    Forall (fun l => store !! l = None) refs.
Proof.
  split; [reflexivity|].
  apply (usePlanRecord_st_result_fresh no_plan_label overall_label summary
           store two_plans_ref two_plans).
  reflexivity.
Defined.

Lemma usePlanRecord_st_rerun_witness :
  load_sql two_plans_ref store = Some (two_plans, store) /\
  exists (out1 out2 : nat) (σ1 σ2 : list Cell),
    usePlanRecord_st no_plan_label overall_label summary two_plans_ref store
    = Some ((isMultiPlans (derive two_plans), out1), σ1) /\
    usePlanRecord_st no_plan_label overall_label summary two_plans_ref σ1
    = Some ((isMultiPlans (derive two_plans), out2), σ2) /\
    out1 <> out2 /\
    load_records out1 σ2 = Some (records (derive two_plans), σ2) /\
    load_records out2 σ2 = Some (records (derive two_plans), σ2) /\
    load_sql two_plans_ref σ2 = Some (two_plans, σ2).
Proof.
  split; [reflexivity|].
  apply (usePlanRecord_st_rerun no_plan_label overall_label summary
           store two_plans_ref two_plans).
  reflexivity.
Defined.

(** ** The claim about the Overview context *)

(** C8: the Overview context is created with the default value [null], so
    a consumer with no enclosing provider reads [null] and nothing is
    thrown; under a provider it reads the provided value. *)
Theorem OverviewContext_default_null (DS CFG : Type) :
  Overview.defaultValue (Overview.OverviewContext DS CFG) = None /\
  Overview.useContext (Overview.OverviewContext DS CFG) [] = None /\
  (forall v providers,
     Overview.useContext (Overview.OverviewContext DS CFG)
       (Overview.OverviewProvider DS CFG v providers) = v).
Proof. done. Qed.
